(** * Scam-Detector backend: a shallow embedding of [backend/server.py]

    The development follows the layout of the source file: the Python
    values the handlers manipulate ([Module Py]), the helper functions
    and the authentication routes, and the [/analyze] pipeline.  Calls
    into third-party libraries (python-jose, google-auth,
    google-generativeai, pydantic, json) and into the document store are
    not part of the repository; each handler receives them through a
    record of functions, so every statement below holds for whatever
    those collaborators answer. *)

From Stdlib Require Import ZArith NArith List String Ascii Bool Lia.
From Stdlib Require Import DecimalString.
Import ListNotations.

#[local] Set Warnings "-register-all".

(* ================================================================== *)
(** * Python values *)
(* ================================================================== *)

Module Py.

(** A Python [str] is a sequence of Unicode code points: [len], slicing
    and [strip] all count code points, not bytes. *)
Definition codepoint := N.
Definition str := list codepoint.

Open Scope N_scope.

(** Literals are written as Rocq strings, which hold UTF-8 bytes; [u]
    decodes them to code points (well-formed input only, as literals
    are). *)
Fixpoint utf8_decode (bs : list N) : str :=
  match bs with
  | [] => []
  | b0 :: r0 =>
    if b0 <? 128 then b0 :: utf8_decode r0
    else if b0 <? 224 then
      match r0 with
      | b1 :: r1 =>
        N.lor (N.shiftl (N.land b0 31) 6) (N.land b1 63) :: utf8_decode r1
      | _ => []
      end
    else if b0 <? 240 then
      match r0 with
      | b1 :: b2 :: r2 =>
        N.lor (N.shiftl (N.land b0 15) 12)
          (N.lor (N.shiftl (N.land b1 63) 6) (N.land b2 63)) :: utf8_decode r2
      | _ => []
      end
    else
      match r0 with
      | b1 :: b2 :: b3 :: r3 =>
        N.lor (N.shiftl (N.land b0 7) 18)
          (N.lor (N.shiftl (N.land b1 63) 12)
             (N.lor (N.shiftl (N.land b2 63) 6) (N.land b3 63))) :: utf8_decode r3
      | _ => []
      end
  end.

Definition u (s : string) : str :=
  utf8_decode (map N_of_ascii (list_ascii_of_string s)).

(** Characters a Rocq literal cannot hold directly. *)
Definition nl : str := [10].
Definition dquote : str := [34].

Fixpoint str_eqb (a b : str) : bool :=
  match a, b with
  | [], [] => true
  | x :: a', y :: b' => (x =? y) && str_eqb a' b'
  | _, _ => false
  end.

(** [str.isspace] for one code point (CPython's [_PyUnicode_IsWhitespace]). *)
Definition isspace (c : codepoint) : bool :=
  ((9 <=? c) && (c <=? 13)) || ((28 <=? c) && (c <=? 32))
  || (c =? 133) || (c =? 160) || (c =? 5760)
  || ((8192 <=? c) && (c <=? 8202))
  || (c =? 8232) || (c =? 8233) || (c =? 8239) || (c =? 8287) || (c =? 12288).

Fixpoint lstrip (s : str) : str :=
  match s with
  | c :: r => if isspace c then lstrip r else s
  | [] => []
  end.

Definition rstrip (s : str) : str := rev (lstrip (rev s)).

(** [s.strip()] *)
Definition strip (s : str) : str := rstrip (lstrip s).

(** [s.startswith(p)] *)
Fixpoint startswith (s p : str) {struct p} : bool :=
  match p, s with
  | [], _ => true
  | a :: p', b :: s' => (a =? b) && startswith s' p'
  | _ :: _, [] => false
  end.

(** [s.endswith(p)] *)
Definition endswith (s p : str) : bool := startswith (rev s) (rev p).

(** [s[n:]], [s[:n]] and [s[:-n]] *)
Definition slice_from (n : nat) (s : str) : str := skipn n s.
Definition slice_to (n : nat) (s : str) : str := firstn n s.
Definition slice_to_neg (n : nat) (s : str) : str := firstn (List.length s - n) s.

(** [p in s] for two strings: substring search. *)
Fixpoint contains_str (s p : str) : bool :=
  startswith s p
  || match s with
     | [] => false
     | _ :: r => contains_str r p
     end.

(** [sep.join(l)] *)
Fixpoint join (sep : str) (l : list str) : str :=
  match l with
  | [] => []
  | [x] => x
  | x :: r => x ++ sep ++ join sep r
  end.

(** [str(n)] for a length. *)
Definition str_of_nat (n : nat) : str :=
  u (NilZero.string_of_uint (Nat.to_uint n)).

Close Scope N_scope.

(** ** Dynamically typed values

    What [json.loads], token claims and store documents are made of.  A
    float is kept as its IEEE-754 bit pattern and a datetime as
    microseconds since the epoch; no modelled operation looks inside a
    float. *)
Inductive pyval :=
| PNone
| PBool (b : bool)
| PInt (z : Z)
| PFloat (bits : Z)
| PStr (s : str)
| PDatetime (us : Z)
| PList (l : list pyval)
| PDict (d : list (str * pyval)).

(** A [dict] with string keys, in insertion order. *)
Definition dict := list (str * pyval).

Fixpoint dict_lookup (d : dict) (k : str) : option pyval :=
  match d with
  | [] => None
  | (k', v) :: r => if str_eqb k' k then Some v else dict_lookup r k
  end.

(** [d.get(k)] and [d.get(k, default)] *)
Definition dict_get_default (d : dict) (k : str) (default : pyval) : pyval :=
  match dict_lookup d k with
  | Some v => v
  | None => default
  end.

Definition dict_get (d : dict) (k : str) : pyval := dict_get_default d k PNone.

(** [k in d] *)
Definition dict_has (d : dict) (k : str) : bool :=
  match dict_lookup d k with
  | Some _ => true
  | None => false
  end.

(** [d.update({k: v})]: an existing key keeps its position. *)
Fixpoint dict_set (d : dict) (k : str) (v : pyval) : dict :=
  match d with
  | [] => [(k, v)]
  | (k', v') :: r =>
    if str_eqb k' k then (k', v) :: r else (k', v') :: dict_set r k v
  end.

(** Truth value of an object, as [if x], [not x] and [x or y] test it. *)
Definition truthy (v : pyval) : bool :=
  match v with
  | PNone => false
  | PBool b => b
  | PInt z => negb (z =? 0)%Z
  | PFloat bits => negb ((bits =? 0)%Z || (bits =? 2 ^ 63)%Z)
  | PStr s => match s with [] => false | _ => true end
  | PDatetime _ => true
  | PList l => match l with [] => false | _ => true end
  | PDict d => match d with [] => false | _ => true end
  end.

(** Structural equality, used for keyed lookup in the document store. *)
Fixpoint pyval_eqb (a b : pyval) : bool :=
  match a, b with
  | PNone, PNone => true
  | PBool x, PBool y => Bool.eqb x y
  | PInt x, PInt y => (x =? y)%Z
  | PFloat x, PFloat y => (x =? y)%Z
  | PStr x, PStr y => str_eqb x y
  | PDatetime x, PDatetime y => (x =? y)%Z
  | PList l1, PList l2 =>
    (fix go (l1 l2 : list pyval) : bool :=
       match l1, l2 with
       | [], [] => true
       | x :: xs, y :: ys => pyval_eqb x y && go xs ys
       | _, _ => false
       end) l1 l2
  | PDict d1, PDict d2 =>
    (fix go (d1 d2 : list (str * pyval)) : bool :=
       match d1, d2 with
       | [], [] => true
       | (k1, v1) :: xs, (k2, v2) :: ys =>
         str_eqb k1 k2 && pyval_eqb v1 v2 && go xs ys
       | _, _ => false
       end) d1 d2
  | _, _ => false
  end.

(** ** Exceptions

    The classes the handlers distinguish in their [except] clauses, and
    one constructor for everything else that derives from [Exception].
    [str(e)] is the message. *)
Inductive exn_class :=
| ValueError
| JSONDecodeError        (* json: a ValueError *)
| BinasciiError          (* binascii.Error: a ValueError *)
| JWTError               (* jose *)
| ExpiredSignatureError  (* jose: a JWTError *)
| JWTClaimsError         (* jose: a JWTError *)
| AttributeError
| TypeError
| KeyError
| DuplicateKeyError      (* pymongo *)
| OtherException.

(** A raised library or built-in exception. *)
Record pyexc := PyExc { exc_class : exn_class; exc_str : str }.

Definition is_ValueError (e : pyexc) : bool :=
  match exc_class e with
  | ValueError | JSONDecodeError | BinasciiError => true
  | _ => false
  end.

Definition is_JSONDecodeError (e : pyexc) : bool :=
  match exc_class e with
  | JSONDecodeError => true
  | _ => false
  end.

Definition is_JWTError (e : pyexc) : bool :=
  match exc_class e with
  | JWTError | ExpiredSignatureError | JWTClaimsError => true
  | _ => false
  end.

(** The [detail] argument of an [HTTPException]: a plain message in the
    authentication routes, a dictionary in [/analyze].  The ["logs"]
    entry of that dictionary is the handler's own [error_logs] list, not
    a copy: it is read from the handler's final state when the response
    is written. *)
Inductive http_detail :=
| DetailStr (message : str)
| DetailDict (error details : str).

(** What a route handler can raise: FastAPI's [HTTPException], or any
    other exception. *)
Inductive raised :=
| Exc (e : pyexc)
| HTTPException (status_code : Z) (detail : http_detail).

(** Outcome of a library call that may raise. *)
Definition result (A : Type) : Type := (pyexc + A)%type.

Definition ok {A} (a : A) : result A := inr a.
Definition throw {A} (c : exn_class) (m : str) : result A := inl (PyExc c m).

Open Scope N_scope.

(** ** [base64.b64decode]

    Python's standard library, in its default mode ([validate=False]):
    a [str] argument is first encoded as ASCII, then handed to
    [binascii.a2b_base64], transcribed here from CPython.  Characters
    outside the alphabet are skipped, a pad sequence that completes a
    quad ends the input, and what is left of an incomplete quad is an
    error. *)
Definition bytes := list N.

(** [table_a2b_base64]: the 6-bit value of an alphabet character. *)
Definition b64_value (c : N) : option N :=
  if (65 <=? c) && (c <=? 90) then Some (c - 65)
  else if (97 <=? c) && (c <=? 122) then Some (c - 71)
  else if (48 <=? c) && (c <=? 57) then Some (c + 4)
  else if c =? 43 then Some 62
  else if c =? 47 then Some 63
  else None.

Definition BASE64_PAD : N := 61.

Record a2b_state := {
  quad_pos : nat;
  leftchar : N;
  pads : nat;
  bin_data : bytes
}.

Definition a2b_init : a2b_state :=
  {| quad_pos := 0; leftchar := 0; pads := 0; bin_data := [] |}.

Definition byte_of (n : N) : N := N.land n 255.

(** The [switch (quad_pos)] of the decoding loop. *)
Definition a2b_push (st : a2b_state) (this_ch : N) : a2b_state :=
  match quad_pos st with
  | O =>
    {| quad_pos := 1; leftchar := this_ch; pads := 0; bin_data := bin_data st |}
  | 1%nat =>
    {| quad_pos := 2; leftchar := N.land this_ch 15; pads := 0;
       bin_data := bin_data st
         ++ [byte_of (N.lor (N.shiftl (leftchar st) 2) (N.shiftr this_ch 4))] |}
  | 2%nat =>
    {| quad_pos := 3; leftchar := N.land this_ch 3; pads := 0;
       bin_data := bin_data st
         ++ [byte_of (N.lor (N.shiftl (leftchar st) 4) (N.shiftr this_ch 2))] |}
  | _ =>
    {| quad_pos := 0; leftchar := 0; pads := 0;
       bin_data := bin_data st
         ++ [byte_of (N.lor (N.shiftl (leftchar st) 6) this_ch)] |}
  end.

(** The loop over the input; the boolean tells whether it left through
    [goto done]. *)
Fixpoint a2b_loop (ascii_data : list N) (st : a2b_state) : a2b_state * bool :=
  match ascii_data with
  | [] => (st, false)
  | this_ch :: rest =>
    if this_ch =? BASE64_PAD then
      if (2 <=? quad_pos st)%nat then
        let st' := {| quad_pos := quad_pos st; leftchar := leftchar st;
                      pads := S (pads st); bin_data := bin_data st |} in
        if (4 <=? quad_pos st + S (pads st))%nat then (st', true)
        else a2b_loop rest st'
      else a2b_loop rest st
    else
      match b64_value this_ch with
      | None => a2b_loop rest st
      | Some v => a2b_loop rest (a2b_push st v)
      end
  end.

Definition a2b_base64 (ascii_data : list N) : result bytes :=
  match a2b_loop ascii_data a2b_init with
  | (st, true) => inr (bin_data st)
  | (st, false) =>
    match quad_pos st with
    | O => inr (bin_data st)
    | 1%nat =>
      inl (PyExc BinasciiError
             (u "Invalid base64-encoded string: number of data characters ("
              ++ str_of_nat (List.length (bin_data st) / 3 * 4 + 1)
              ++ u ") cannot be 1 more than a multiple of 4"))
    | _ => inl (PyExc BinasciiError (u "Incorrect padding"))
    end
  end.

Definition b64decode (s : str) : result bytes :=
  if forallb (fun c => c <? 128) s then a2b_base64 s
  else inl (PyExc ValueError
              (u "string argument should contain only ASCII characters")).

Close Scope N_scope.

End Py.

Import Py.

(* ================================================================== *)
(** * Handlers as state-passing computations *)
(* ================================================================== *)

(** A handler runs over a mutable state [S] (the document store, or the
    [error_logs] list).  State written before a [raise] stays written,
    as in Python. *)
Definition M (S E A : Type) : Type := S -> (E + A) * S.

Definition ret {S E A} (a : A) : M S E A := fun s => (inr a, s).

Definition raise {S E A} (e : E) : M S E A := fun s => (inl e, s).

Definition bind {S E A B} (m : M S E A) (k : A -> M S E B) : M S E B :=
  fun s =>
    match m s with
    | (inr a, s') => k a s'
    | (inl e, s') => (inl e, s')
    end.

Declare Scope handler_scope.
Delimit Scope handler_scope with handler.

Notation "x <- c1 ;; c2" := (bind c1 (fun x => c2))
  (at level 61, c1 at next level, right associativity) : handler_scope.
Notation "c1 ;; c2" := (bind c1 (fun _ => c2))
  (at level 61, right associativity) : handler_scope.

Open Scope handler_scope.

(** A library call made from a handler. *)
Definition call {S A} (r : result A) : M S pyexc A := fun s => (r, s).

(** The same computation seen from code that may also raise
    [HTTPException]. *)
Definition lift {S A} (m : M S pyexc A) : M S raised A :=
  fun s =>
    match m s with
    | (inr a, s') => (inr a, s')
    | (inl e, s') => (inl (Exc e), s')
    end.

(** [try: body / except Exception as e: handler e], for a body that
    raises no [HTTPException] itself. *)
Definition try_except_Exception {S A}
    (body : M S pyexc A) (handler : pyexc -> M S raised A) : M S raised A :=
  fun s =>
    match body s with
    | (inr a, s') => (inr a, s')
    | (inl e, s') => handler e s'
    end.

(** [try: body / except C1 as e: ... / except C2 as e: ...]: [handlers e]
    is the first clause whose class matches [e], if any.  An
    [HTTPException] matches none of the classes named in the source
    ([JWTError], [json.JSONDecodeError], [ValueError]) and an
    [except HTTPException: raise] clause re-raises it, so it always
    passes through. *)
Definition try_except {S A}
    (body : M S raised A) (handlers : pyexc -> option (M S raised A))
    : M S raised A :=
  fun s =>
    match body s with
    | (inr a, s') => (inr a, s')
    | (inl (Exc e), s') =>
      match handlers e with
      | Some h => h s'
      | None => (inl (Exc e), s')
      end
    | (inl (HTTPException c d), s') => (inl (HTTPException c d), s')
    end.

(* ================================================================== *)
(** * Configuration and models (server.py, lines 44-82) *)
(* ================================================================== *)

Definition JWT_ALGORITHM : str := u "HS256".
Definition ACCESS_TOKEN_EXPIRE_MINUTES : Z := 60 * 24 * 7.

Record GoogleAuthRequest := { google_id_token : str }.

Record AppleAuthRequest := {
  apple_id_token : str;
  user_data : option dict
}.

Record AuthResponse := {
  access_token : str;
  token_type : str;
  user : dict
}.

(** ** The collaborators of the authentication routes

    [JWT_SECRET] comes from the environment (or is drawn at start-up);
    [clock n] is what the n-th [datetime.utcnow()] of the process
    returns, in microseconds; the remaining fields are python-jose's
    [jwt.encode], [jwt.decode] and [jwt.get_unverified_claims] and
    google-auth's [id_token.verify_oauth2_token]. *)
Record AuthEnv := {
  JWT_SECRET : str;
  clock : nat -> Z;
  jwt_encode : dict -> str -> str -> str;
  jwt_decode : str -> str -> list str -> result dict;
  jwt_get_unverified_claims : str -> result dict;
  verify_oauth2_token : str -> result dict
}.

(** ** The document store

    [db.users] is a collection of documents, each with an [_id]; the
    process-wide state also counts the clock reads made so far. *)
Record world := {
  users : list dict;
  ticks : nat
}.

Definition has_id (uid : pyval) (doc : dict) : bool :=
  match dict_lookup doc (u "_id") with
  | Some v => pyval_eqb v uid
  | None => false
  end.

(** [await db.users.find_one({"_id": uid})]: the first document whose
    [_id] equals [uid].  This is what the store does for an id that is
    text or [None] (see [text_or_none] below); for other values the
    driver and the server do more than compare, and the routes are
    only specified on ids of that kind. *)
Definition find_one {E} (uid : pyval) : M world E (option dict) :=
  fun w => (inr (find (has_id uid) (users w)), w).

(** [await db.users.insert_one(doc)]: the store refuses a second
    document with the same [_id] (the message is shortened).  As for [find_one], this is
    the store's behaviour for a document whose [_id] and fields are
    text, [None] or a time. *)
Definition insert_one (doc : dict) : M world pyexc unit :=
  fun w =>
    if existsb (has_id (dict_get doc (u "_id"))) (users w)
    then (throw DuplicateKeyError (u "E11000 duplicate key error"), w)
    else (inr tt, {| users := users w ++ [doc]; ticks := ticks w |}).

(** ** The values the store is modelled on

    The driver encodes a document as BSON before it is sent.  Text made
    of Unicode scalar values and [None] are encoded as they are, are
    accepted as [_id], and are compared by equality in a filter.  Other
    values are not: an integer beyond 64 bits or a lone surrogate
    cannot be encoded, an array is refused as [_id], and a [dict] with
    [$] keys in a filter is a query operator.  The statements about
    what a sign-in stores are made for claims of the first kind. *)
Definition scalar_value (c : codepoint) : bool :=
  (c <? 55296)%N || ((57343 <? c)%N && (c <=? 1114111)%N).

Definition text_or_none (v : pyval) : bool :=
  match v with
  | PNone => true
  | PStr s => forallb scalar_value s
  | _ => false
  end.

(** The entries of [d] under [keys] are each text or absent. *)
Definition text_fields (d : dict) (keys : list str) : bool :=
  forallb (fun k => text_or_none (dict_get d k)) keys.

(** [datetime.utcnow()] *)
Definition utcnow {E} (env : AuthEnv) : M world E Z :=
  fun w => (inr (clock env (ticks w)),
            {| users := users w; ticks := S (ticks w) |}).

(** [timedelta(minutes=m)], in microseconds. *)
Definition timedelta_minutes (m : Z) : Z := m * 60 * 1000000.

(** [not user] for the result of [find_one]: [None] and the empty
    document are false. *)
Definition not_user (user : option dict) : bool :=
  match user with
  | None => true
  | Some d => negb (truthy (PDict d))
  end.

(** [d[k]] *)
Definition subscript (d : dict) (k : str) : result pyval :=
  match dict_lookup d k with
  | Some v => ok v
  | None => throw KeyError (u "'" ++ k ++ u "'")
  end.

(** [v.get(k, default)]: only a [dict] has the method.  (Python's
    message also names the type of [v]; the handler only logs it.) *)
Definition py_get (v : pyval) (k : str) (default : pyval) : result pyval :=
  match v with
  | PDict d => ok (dict_get_default d k default)
  | _ => throw AttributeError (u "object has no attribute 'get'")
  end.

(* ================================================================== *)
(** * Helper functions and authentication routes (lines 85-235) *)
(* ================================================================== *)

Definition create_access_token {E} (env : AuthEnv) (data : dict) : M world E str :=
  let to_encode := data in
  now <- utcnow env ;;
  let expire := (now + timedelta_minutes ACCESS_TOKEN_EXPIRE_MINUTES)%Z in
  let to_encode := dict_set to_encode (u "exp") (PDatetime expire) in
  let encoded_jwt := jwt_encode env to_encode (JWT_SECRET env) JWT_ALGORITHM in
  ret encoded_jwt.

Definition invalid_credentials : raised :=
  HTTPException 401 (DetailStr (u "Invalid authentication credentials")).

Definition get_current_user (env : AuthEnv) (credentials : str) : M world raised dict :=
  try_except
    (let token := credentials in
     payload <- lift (call (jwt_decode env token (JWT_SECRET env) [JWT_ALGORITHM])) ;;
     let user_id := dict_get payload (u "sub") in
     match user_id with
     | PNone => raise invalid_credentials
     | _ =>
       user <- find_one user_id ;;
       match user with
       | None => raise (HTTPException 401 (DetailStr (u "User not found")))
       | Some user => ret user
       end
     end)
    (fun e => if is_JWTError e then Some (raise invalid_credentials) else None).

Definition profile (email name picture : pyval) : dict :=
  [(u "email", email); (u "name", name); (u "picture", picture)].

Definition google_auth (env : AuthEnv) (auth_request : GoogleAuthRequest)
    : M world raised AuthResponse :=
  try_except_Exception
    (idinfo <- call (verify_oauth2_token env (google_id_token auth_request)) ;;
     user_id <- call (subscript idinfo (u "sub")) ;;
     let email := dict_get idinfo (u "email") in
     let name := dict_get idinfo (u "name") in
     let picture := dict_get idinfo (u "picture") in
     user <- find_one user_id ;;
     (if not_user user then
        created_at <- utcnow env ;;
        let user :=
          [(u "_id", user_id); (u "email", email); (u "name", name);
           (u "picture", picture); (u "provider", PStr (u "google"));
           (u "created_at", PDatetime created_at)] in
        insert_one user
      else ret tt) ;;
     access_token <- create_access_token env [(u "sub", user_id)] ;;
     ret {| access_token := access_token;
            token_type := u "bearer";
            user := profile email name picture |})
    (fun e =>
       if is_ValueError e
       then raise (HTTPException 401 (DetailStr (u "Invalid Google token")))
       else raise (HTTPException 500 (DetailStr (u "Authentication failed")))).

(** [auth_request.user_data] as a condition: set and not empty. *)
Definition user_data_given (user_data : option dict) : bool :=
  match user_data with
  | Some d => truthy (PDict d)
  | None => false
  end.

Definition apple_auth (env : AuthEnv) (auth_request : AppleAuthRequest)
    : M world raised AuthResponse :=
  try_except_Exception
    (unverified <- call (jwt_get_unverified_claims env (apple_id_token auth_request)) ;;
     let user_id := dict_get unverified (u "sub") in
     let email := dict_get unverified (u "email") in
     found <- find_one user_id ;;
     user <-
       (if not_user found && user_data_given (user_data auth_request) then
          let data := match user_data auth_request with Some d => d | None => [] end in
          let email := if truthy email then email else dict_get data (u "email") in
          name <- call (py_get (dict_get_default data (u "fullName") (PDict []))
                               (u "givenName") (PStr (u "User"))) ;;
          created_at <- utcnow env ;;
          let user :=
            [(u "_id", user_id); (u "email", email); (u "name", name);
             (u "provider", PStr (u "apple"));
             (u "created_at", PDatetime created_at)] in
          insert_one user ;;
          ret user
        else if not_user found then
          created_at <- utcnow env ;;
          let user :=
            [(u "_id", user_id); (u "email", email); (u "name", PStr (u "User"));
             (u "provider", PStr (u "apple"));
             (u "created_at", PDatetime created_at)] in
          insert_one user ;;
          ret user
        else ret (match found with Some d => d | None => [] end)) ;;
     access_token <- create_access_token env [(u "sub", user_id)] ;;
     ret {| access_token := access_token;
            token_type := u "bearer";
            user := profile (dict_get user (u "email")) (dict_get user (u "name"))
                            (dict_get user (u "picture")) |})
    (fun e => raise (HTTPException 500 (DetailStr (u "Authentication failed")))).

Definition get_me (env : AuthEnv) (credentials : str) : M world raised dict :=
  current_user <- get_current_user env credentials ;;
  ret (profile (dict_get current_user (u "email"))
               (dict_get current_user (u "name"))
               (dict_get current_user (u "picture"))).

(* ================================================================== *)
(** * The [/analyze] pipeline (lines 52-66 and 238-522) *)
(* ================================================================== *)

Record ScamAnalysisRequest := { image_base64 : str }.

Record ScamIndicator := {
  title : str;
  explanation : str;
  severity : str
}.

Record ScamAnalysisResponse := {
  score : Z;
  risk_level : str;
  indicators : list ScamIndicator;
  summary : str
}.

(** ** The value bound to [response]

    [model.generate_content] of google-generativeai answers with a
    [GenerateContentResponse]; its [text] property returns the reply or
    raises when the reply holds no text.  The class defines [text],
    [parts], [candidates], [prompt_feedback] and [usage_metadata], and
    no method of [str].  The pipeline is stated for a [response] that is
    either such an object or a plain [str], the two kinds of value the
    handler treats it as. *)
Record GenerateContentResponse := { text : result str }.

Inductive pyobj :=
| ObjStr (s : str)
| ObjResponse (r : GenerateContentResponse).

(** [response.text] *)
Definition getattr_text (response : pyobj) : result str :=
  match response with
  | ObjResponse r => text r
  | ObjStr _ => throw AttributeError (u "'str' object has no attribute 'text'")
  end.

Definition strip_error : str :=
  u "'GenerateContentResponse' object has no attribute 'strip'".

(** [response.strip()] *)
Definition call_strip (response : pyobj) : result str :=
  match response with
  | ObjStr s => ok (strip s)
  | ObjResponse _ => throw AttributeError strip_error
  end.

Record GenerativeModel := { model_name : str }.

(** ** The collaborators of the pipeline

    [GOOGLE_API_KEY] comes from the environment; [system_message] is
    the fixed instruction text of lines 301-376, which the handler only
    passes on; the remaining fields are google-generativeai
    ([genai.configure], [genai.GenerativeModel],
    [model.generate_content] with its prompt, MIME type and image
    bytes), [json.loads], and the pydantic constructors: [ScamIndicator]
    applied to an unpacked [ind], and [ScamAnalysisResponse] applied to
    the keywords [score], [risk_level], [indicators] and [summary]. *)
Record AnalyzeEnv := {
  GOOGLE_API_KEY : str;
  system_message : str;
  genai_configure : str -> result unit;
  genai_GenerativeModel : str -> result GenerativeModel;
  generate_content : GenerativeModel -> str -> str -> bytes -> result pyobj;
  json_loads : str -> result pyval;
  ScamIndicator_init : pyval -> result ScamIndicator;
  ScamAnalysisResponse_init :
    pyval -> pyval -> list ScamIndicator -> pyval -> result ScamAnalysisResponse
}.

(** Calls that leave the process. *)
Inductive genai_call :=
| Configure (api_key : str)
| NewModel (name : str)
| GenerateContent (prompt mime_type : str) (data : bytes).

(** The handler's mutable locals: the [error_logs] list, the
    [response_text] variable (read by an [except] clause after the body
    assigned it), and the record of outgoing calls. *)
Record locals := {
  error_logs : list str;
  response_text : str;
  outgoing : list genai_call
}.

Definition initial_locals : locals :=
  {| error_logs := []; response_text := []; outgoing := [] |}.

(** [error_logs.append(note)] *)
Definition log {E} (note : str) : M locals E unit :=
  fun st => (inr tt, {| error_logs := error_logs st ++ [note];
                        response_text := response_text st;
                        outgoing := outgoing st |}).

Definition set_response_text {E} (t : str) : M locals E unit :=
  fun st => (inr tt, {| error_logs := error_logs st;
                        response_text := t;
                        outgoing := outgoing st |}).

Definition get_response_text {E} : M locals E str :=
  fun st => (inr (response_text st), st).

Definition outgoing_call {A} (c : genai_call) (r : result A) : M locals pyexc A :=
  fun st => (r, {| error_logs := error_logs st;
                   response_text := response_text st;
                   outgoing := outgoing st ++ [c] |}).

(** [field in analysis_data], for whatever [json.loads] returned: key
    membership in an object, element membership in an array, substring
    search in a string, [TypeError] otherwise.  The messages of the
    [TypeError]s here and below are shortened: Python's also name the
    type of the operand. *)
Definition py_contains (container : pyval) (field : str) : result bool :=
  match container with
  | PDict d => ok (dict_has d field)
  | PList l => ok (existsb (pyval_eqb (PStr field)) l)
  | PStr s => ok (contains_str s field)
  | _ => throw TypeError (u "argument of this type is not iterable")
  end.

(** [[field for field in fields if field not in analysis_data]] *)
Fixpoint missing_from (analysis_data : pyval) (fields : list str) : result (list str) :=
  match fields with
  | [] => ok []
  | field :: rest =>
    match py_contains analysis_data field with
    | inl e => inl e
    | inr present =>
      match missing_from analysis_data rest with
      | inl e => inl e
      | inr missing => ok (if present then missing else field :: missing)
      end
    end
  end.

(** [analysis_data[key]] *)
Definition py_subscript (v : pyval) (key : str) : result pyval :=
  match v with
  | PDict d => subscript d key
  | PList _ | PStr _ => throw TypeError (u "indices must be integers")
  | _ => throw TypeError (u "object is not subscriptable")
  end.

(** [for ind in v] *)
Definition py_iter (v : pyval) : result (list pyval) :=
  match v with
  | PList l => ok l
  | PDict d => ok (map (fun kv => PStr (fst kv)) d)
  | PStr s => ok (map (fun c => PStr [c]) s)
  | _ => throw TypeError (u "object is not iterable")
  end.

(** [[f(x) for x in l]] *)
Fixpoint map_result {A B} (f : A -> result B) (l : list A) : result (list B) :=
  match l with
  | [] => ok []
  | x :: r =>
    match f x with
    | inl e => inl e
    | inr y =>
      match map_result f r with
      | inl e => inl e
      | inr ys => ok (y :: ys)
      end
    end
  end.

Definition fence : str := u "```".
Definition fence_json : str := u "```json".

(** Lines 426-432, applied to the value [response.strip()] returned. *)
Definition remove_code_blocks (response_text : str) : str :=
  let response_text :=
    if startswith response_text fence_json
    then slice_from 7 response_text else response_text in
  let response_text :=
    if startswith response_text fence
    then slice_from 3 response_text else response_text in
  let response_text :=
    if endswith response_text fence
    then slice_to_neg 3 response_text else response_text in
  strip response_text.

Definition required_fields : list str :=
  [u "score"; u "risk_level"; u "indicators"; u "summary"].

Definition user_instruction : str :=
  u "Analyze this image for scam indicators. It could be anything - an email, social media profile, text message, advertisement, job posting, or any other content. Provide a detailed analysis with a scam score from 0-100 and explain each indicator in simple language that anyone can understand.".

Definition fail {A} (status : Z) (error details : str) : M locals raised A :=
  raise (HTTPException status (DetailDict error details)).

Definition analyze_image (env : AnalyzeEnv) (request : ScamAnalysisRequest)
    : M locals raised ScamAnalysisResponse :=
  try_except
    ((* Validate image data *)
     match image_base64 request with
     | [] =>
       log (u "❌ Empty image data received") ;;
       fail 400 (u "Invalid Image")
         (u "The image data is empty or invalid. Please try uploading a different image.")
     | _ => ret tt
     end ;;
     log (u "✅ Image data validated") ;;
     (* Check API key *)
     match GOOGLE_API_KEY env with
     | [] =>
       log (u "❌ API key not configured") ;;
       fail 500 (u "Configuration Error")
         (u "AI service is not properly configured. Please contact support.")
     | _ => ret tt
     end ;;
     log (u "✅ API key found") ;;
     (* Initialize Gemini API *)
     model <-
       try_except_Exception
         (outgoing_call (Configure (GOOGLE_API_KEY env))
            (genai_configure env (GOOGLE_API_KEY env)) ;;
          model <- outgoing_call (NewModel (u "gemini-1.5-flash"))
                     (genai_GenerativeModel env (u "gemini-1.5-flash")) ;;
          log (u "✅ AI service initialized") ;;
          ret model)
         (fun e =>
            log (u "❌ Failed to initialize AI service: " ++ exc_str e) ;;
            fail 500 (u "AI Service Error")
              (u "Could not connect to AI service: " ++ exc_str e)) ;;
     (* Process the base64 image *)
     image_data <-
       try_except_Exception
         (image_data <- call (b64decode (image_base64 request)) ;;
          log (u "✅ Image content prepared") ;;
          ret image_data)
         (fun e =>
            log (u "❌ Failed to process image: " ++ exc_str e) ;;
            fail 400 (u "Image Processing Error")
              (u "Failed to process the image: " ++ exc_str e
               ++ u ". Make sure you're uploading a valid image file.")) ;;
     (* Create the prompt *)
     let prompt := system_message env ++ nl ++ nl ++ user_instruction in
     log (u "✅ Analysis request prepared") ;;
     (* Send request to Gemini and get response *)
     response <-
       try_except_Exception
         (response <- outgoing_call
                        (GenerateContent prompt (u "image/jpeg") image_data)
                        (generate_content env model prompt (u "image/jpeg") image_data) ;;
          log (u "✅ AI analysis completed") ;;
          response_text <- call (getattr_text response) ;;
          set_response_text response_text ;;
          ret response)
         (fun e =>
            log (u "❌ AI analysis failed: " ++ exc_str e) ;;
            fail 500 (u "AI Analysis Failed")
              (u "The AI service encountered an error: " ++ exc_str e
               ++ u ". This might be a temporary issue - please try again.")) ;;
     (* Parse the JSON response *)
     analysis_data <-
       try_except
         ((* Remove markdown code blocks if present *)
          stripped <- lift (call (call_strip response)) ;;
          set_response_text (remove_code_blocks stripped) ;;
          response_text <- get_response_text ;;
          log (u "📄 Raw AI response received ("
               ++ str_of_nat (List.length response_text) ++ u " chars)") ;;
          (* Parse JSON *)
          analysis_data <- lift (call (json_loads env response_text)) ;;
          log (u "✅ Response parsed successfully") ;;
          (* Validate required fields *)
          missing_fields <- lift (call (missing_from analysis_data required_fields)) ;;
          match missing_fields with
          | [] => ret tt
          | _ =>
            log (u "❌ Missing fields in response: " ++ join (u ", ") missing_fields) ;;
            raise (Exc (PyExc ValueError
                     (u "Missing required fields: " ++ join (u ", ") missing_fields)))
          end ;;
          log (u "✅ Response validation passed") ;;
          ret analysis_data)
         (fun e =>
            if is_JSONDecodeError e then
              Some (log (u "❌ JSON parsing failed: " ++ exc_str e) ;;
                    response_text <- get_response_text ;;
                    log (u "📄 Response preview: " ++ slice_to 200 response_text
                         ++ u "...") ;;
                    fail 500 (u "Response Parsing Error")
                      (u "Failed to parse AI response. The AI returned invalid data format: "
                       ++ exc_str e))
            else if is_ValueError e then
              Some (log (u "❌ Validation failed: " ++ exc_str e) ;;
                    fail 500 (u "Invalid Response Format")
                      (u "AI response is missing required information: "
                       ++ exc_str e))
            else None) ;;
     (* Create response model *)
     try_except_Exception
       (raw <- call (py_subscript analysis_data (u "indicators")) ;;
        items <- call (py_iter raw) ;;
        indicators <- call (map_result (ScamIndicator_init env) items) ;;
        score <- call (py_subscript analysis_data (u "score")) ;;
        risk_level <- call (py_subscript analysis_data (u "risk_level")) ;;
        summary <- call (py_subscript analysis_data (u "summary")) ;;
        result <- call (ScamAnalysisResponse_init env score risk_level indicators summary) ;;
        log (u "✅ Analysis completed successfully!") ;;
        ret result)
       (fun e =>
          log (u "❌ Failed to create response: " ++ exc_str e) ;;
          fail 500 (u "Response Creation Error")
            (u "Failed to format the analysis results: " ++ exc_str e)))
    (fun e =>
       (* Catch any unexpected errors *)
       Some (log (u "❌ Unexpected error: " ++ exc_str e) ;;
             fail 500 (u "Unexpected Error")
               (u "An unexpected error occurred: " ++ exc_str e
                ++ u ". Please try again or contact support if the issue persists."))).

(** ** What the caller receives

    FastAPI writes a returned model as a 200 response and an
    [HTTPException] as a response with its status code and detail; the
    ["logs"] entry of the detail is the [error_logs] list as it stands
    when the handler is left. *)
Inductive http_response (B : Type) :=
| Response200 (body : B)
| ResponseError (status : Z) (error details : str) (logs : list str)
| ResponseDetail (status : Z) (detail : str)
| ResponseUnhandled (e : pyexc).

Arguments Response200 {B} body.
Arguments ResponseError {B} status error details logs.
Arguments ResponseDetail {B} status detail.
Arguments ResponseUnhandled {B} e.

Definition respond {B} (outcome : raised + B) (logs : list str) : http_response B :=
  match outcome with
  | inr body => Response200 body
  | inl (HTTPException status (DetailDict error details)) =>
    ResponseError status error details logs
  | inl (HTTPException status (DetailStr detail)) => ResponseDetail status detail
  | inl (Exc e) => ResponseUnhandled e
  end.

(** [POST /api/analyze] *)
Definition post_analyze (env : AnalyzeEnv) (request : ScamAnalysisRequest)
    : http_response ScamAnalysisResponse :=
  let (outcome, st) := analyze_image env request initial_locals in
  respond outcome (error_logs st).

(** The calls that left the process while serving the request. *)
Definition calls_made (env : AnalyzeEnv) (request : ScamAnalysisRequest)
    : list genai_call :=
  outgoing (snd (analyze_image env request initial_locals)).

(** The routes of the authentication part, as the caller sees them. *)
Definition run_route {B} (handler : M world raised B) (w : world)
    : http_response B * world :=
  let (outcome, w') := handler w in (respond outcome [], w').

Definition status_of {B} (r : http_response B) : Z :=
  match r with
  | Response200 _ => 200
  | ResponseError status _ _ _ => status
  | ResponseDetail status _ => status
  | ResponseUnhandled _ => 500
  end.

(** Successive Google sign-ins served one after the other: what each
    of the requests is answered, in order, and the store they leave. *)
Fixpoint serve_google_responses (env : AuthEnv) (requests : list GoogleAuthRequest)
    (w : world) : list (http_response AuthResponse) * world :=
  match requests with
  | [] => ([], w)
  | request :: later =>
    let (response, w1) := run_route (google_auth env request) w in
    let (responses, w2) := serve_google_responses env later w1 in
    (response :: responses, w2)
  end.

(** ** A sign-in served among other requests

    The handlers are coroutines: at an [await] the event loop may serve
    other requests before this one goes on.  [google_auth] awaits the
    store twice, for the lookup (line 141) and for the insert (line
    151).  An [interleaving] is what the requests served in the
    meantime do to the store and the clock: once the lookup has been
    answered, before the insert is carried out, and after it. *)
Record interleaving := {
  after_lookup : world -> world;
  before_insert : world -> world;
  after_insert : world -> world
}.

Definition meanwhile {E} (others : world -> world) : M world E unit :=
  fun w => (inr tt, others w).


(** [google_auth], line by line, with the other requests let in at its
    two awaits. *)
Definition google_auth_among (env : AuthEnv) (others : interleaving)
    (auth_request : GoogleAuthRequest) : M world raised AuthResponse :=
  try_except_Exception
    (idinfo <- call (verify_oauth2_token env (google_id_token auth_request)) ;;
     user_id <- call (subscript idinfo (u "sub")) ;;
     let email := dict_get idinfo (u "email") in
     let name := dict_get idinfo (u "name") in
     let picture := dict_get idinfo (u "picture") in
     user <- find_one user_id ;;
     meanwhile (after_lookup others) ;;
     (if not_user user then
        created_at <- utcnow env ;;
        let user :=
          [(u "_id", user_id); (u "email", email); (u "name", name);
           (u "picture", picture); (u "provider", PStr (u "google"));
           (u "created_at", PDatetime created_at)] in
        meanwhile (before_insert others) ;;
        insert_one user ;;
        meanwhile (after_insert others)
      else ret tt) ;;
     access_token <- create_access_token env [(u "sub", user_id)] ;;
     ret {| access_token := access_token;
            token_type := u "bearer";
            user := profile email name picture |})
    (fun e =>
       if is_ValueError e
       then raise (HTTPException 401 (DetailStr (u "Invalid Google token")))
       else raise (HTTPException 500 (DetailStr (u "Authentication failed")))).

(** [apple_auth] likewise: the lookup is awaited at line 184, the
    insert at line 197 or 207. *)
Definition apple_auth_among (env : AuthEnv) (others : interleaving)
    (auth_request : AppleAuthRequest) : M world raised AuthResponse :=
  try_except_Exception
    (unverified <- call (jwt_get_unverified_claims env (apple_id_token auth_request)) ;;
     let user_id := dict_get unverified (u "sub") in
     let email := dict_get unverified (u "email") in
     found <- find_one user_id ;;
     meanwhile (after_lookup others) ;;
     user <-
       (if not_user found && user_data_given (user_data auth_request) then
          let data := match user_data auth_request with Some d => d | None => [] end in
          let email := if truthy email then email else dict_get data (u "email") in
          name <- call (py_get (dict_get_default data (u "fullName") (PDict []))
                               (u "givenName") (PStr (u "User"))) ;;
          created_at <- utcnow env ;;
          let user :=
            [(u "_id", user_id); (u "email", email); (u "name", name);
             (u "provider", PStr (u "apple"));
             (u "created_at", PDatetime created_at)] in
          meanwhile (before_insert others) ;;
          insert_one user ;;
          meanwhile (after_insert others) ;;
          ret user
        else if not_user found then
          created_at <- utcnow env ;;
          let user :=
            [(u "_id", user_id); (u "email", email); (u "name", PStr (u "User"));
             (u "provider", PStr (u "apple"));
             (u "created_at", PDatetime created_at)] in
          meanwhile (before_insert others) ;;
          insert_one user ;;
          meanwhile (after_insert others) ;;
          ret user
        else ret (match found with Some d => d | None => [] end)) ;;
     access_token <- create_access_token env [(u "sub", user_id)] ;;
     ret {| access_token := access_token;
            token_type := u "bearer";
            user := profile (dict_get user (u "email")) (dict_get user (u "name"))
                            (dict_get user (u "picture")) |})
    (fun e => raise (HTTPException 500 (DetailStr (u "Authentication failed")))).

Definition microseconds_per_day : Z := 24 * 60 * 60 * 1000000.

(* ================================================================== *)
(** * Sample collaborators *)
(* ================================================================== *)

(** Small stand-ins for the libraries, to run the handlers on concrete
    requests.  A sample token is a subject and a signature joined by a
    dot; the signature is good when it equals the signing key. *)
Module Sample.

Fixpoint until_dot (s : str) : str * str :=
  match s with
  | [] => ([], [])
  | c :: r =>
    if (c =? 46)%N then ([], r)
    else let (a, b) := until_dot r in (c :: a, b)
  end.

(** [token.rsplit(".", 1)] *)
Definition rsplit_dot (token : str) : str * str :=
  let (signature, payload) := until_dot (rev token) in
  (rev payload, rev signature).

Definition claims_of (payload : str) : dict :=
  match payload with
  | [] => []
  | _ => [(u "sub", PStr payload); (u "email", PStr (payload ++ u "@example.com"))]
  end.

Definition encode (claims : dict) (key algorithm : str) : str :=
  match dict_get claims (u "sub") with
  | PStr subject => subject ++ u "." ++ key
  | _ => u "." ++ key
  end.

Definition decode (token key : str) (algorithms : list str) : result dict :=
  let (payload, signature) := rsplit_dot token in
  if str_eqb signature key then ok (claims_of payload)
  else throw JWTError (u "Signature verification failed.").

Definition unverified_claims (token : str) : result dict :=
  ok (claims_of (fst (rsplit_dot token))).

Definition verify_google (token : str) : result dict :=
  if startswith token (u "google:")
  then ok [(u "sub", PStr (slice_from 7 token));
           (u "email", PStr (u "ada@example.com"));
           (u "name", PStr (u "Ada"))]
  else throw ValueError (u "Wrong number of segments in token").

Definition auth_env : AuthEnv :=
  {| JWT_SECRET := u "k3y";
     clock := fun n => (1700000000000000 + Z.of_nat n)%Z;
     jwt_encode := encode;
     jwt_decode := decode;
     jwt_get_unverified_claims := unverified_claims;
     verify_oauth2_token := verify_google |}.

Definition ada : dict :=
  [(u "_id", PStr (u "ada")); (u "email", PStr (u "ada@example.com"));
   (u "name", PStr (u "Ada")); (u "picture", PNone);
   (u "provider", PStr (u "google")); (u "created_at", PDatetime 1600000000000000)].

Definition empty_store : world := {| users := []; ticks := 0 |}.
Definition store_with_ada : world := {| users := [ada]; ticks := 5 |}.

(** A payload that decodes, and two replies of the model. *)
Definition image : str := u "aGVsbG8=".

Definition reply_score_only : str :=
  u "{" ++ dquote ++ u "score" ++ dquote ++ u ": 10}".

Definition reply_complete : str :=
  u "{" ++ dquote ++ u "score" ++ dquote ++ u ": 10, "
  ++ dquote ++ u "risk_level" ++ dquote ++ u ": " ++ dquote ++ u "safe" ++ dquote ++ u ", "
  ++ dquote ++ u "indicators" ++ dquote ++ u ": [], "
  ++ dquote ++ u "summary" ++ dquote ++ u ": " ++ dquote ++ u "Looks fine." ++ dquote
  ++ u "}".

(** The reply inside a fenced block tagged json. *)
Definition fenced (reply : str) : str := fence_json ++ nl ++ reply ++ nl ++ fence.

Definition loads (text : str) : result pyval :=
  if str_eqb text reply_score_only then ok (PDict [(u "score", PInt 10)])
  else if str_eqb text reply_complete then
    ok (PDict [(u "score", PInt 10); (u "risk_level", PStr (u "safe"));
               (u "indicators", PList []); (u "summary", PStr (u "Looks fine."))])
  else throw JSONDecodeError (u "Expecting value: line 1 column 1 (char 0)").

Definition indicator_of (ind : pyval) : result ScamIndicator :=
  match ind with
  | PDict d =>
    match dict_get d (u "title"), dict_get d (u "explanation"), dict_get d (u "severity") with
    | PStr t, PStr e, PStr v => ok {| title := t; explanation := e; severity := v |}
    | _, _, _ => throw OtherException (u "validation error for ScamIndicator")
    end
  | _ => throw TypeError (u "argument after ** must be a mapping")
  end.

Definition response_of (score risk_level : pyval) (indicators : list ScamIndicator)
    (summary : pyval) : result ScamAnalysisResponse :=
  match score, risk_level, summary with
  | PInt n, PStr r, PStr t =>
    ok {| score := n; risk_level := r; indicators := indicators; summary := t |}
  | _, _, _ => throw OtherException (u "validation error for ScamAnalysisResponse")
  end.

(** A service with the given key whose model answers [response]. *)
Definition analyze_env (key : str) (response : result pyobj) : AnalyzeEnv :=
  {| GOOGLE_API_KEY := key;
     system_message := u "You are a scam detection expert.";
     genai_configure := fun _ => ok tt;
     genai_GenerativeModel := fun name => ok {| model_name := name |};
     generate_content := fun _ _ _ _ => response;
     json_loads := loads;
     ScamIndicator_init := indicator_of;
     ScamAnalysisResponse_init := response_of |}.

Definition replying (reply : str) : result pyobj :=
  ok (ObjResponse {| text := ok reply |}).

End Sample.

(** ** The test of an undecodable payload (backend_test.py, lines 252-277)

    The test posts its fixed payload to the backend and passes when the
    status is 400, 422 or 500.  The backend is the argument; a
    transport failure, which the test reports as a failure, is left
    out. *)
Definition test_analyze_invalid_base64
    (post : ScamAnalysisRequest -> http_response ScamAnalysisResponse) : bool :=
  let payload := {| image_base64 := u "invalid_base64_data!!!" |} in
  let response := post payload in
  existsb (Z.eqb (status_of response)) [400; 422; 500]%Z.

(** An ASCII character that [a2b_base64] passes over when no quad is
    open: one outside the alphabet, the pad character included. *)
Definition skipped (c : N) : bool :=
  (c <? 128)%N && match b64_value c with None => true | Some _ => false end.

(** More stand-ins: an authentication environment built from three
    given library behaviours, with the key, clock and encoder of
    [Sample]. *)
Module Cases.

Definition auth_env
    (decode : str -> str -> list str -> result dict)
    (unverified verify : str -> result dict) : AuthEnv :=
  {| JWT_SECRET := u "k3y";
     clock := fun n => (1700000000000000 + Z.of_nat n)%Z;
     jwt_encode := Sample.encode;
     jwt_decode := decode;
     jwt_get_unverified_claims := unverified;
     verify_oauth2_token := verify |}.

(** Tokens whose claims hold an email and no subject. *)
Definition email_only (token : str) : result dict :=
  ok [(u "email", PStr token)].

Definition no_subject_env : AuthEnv :=
  auth_env Sample.decode email_only email_only.

(** A library that fails outside its documented exception classes. *)
Definition broken (token : str) : result dict :=
  throw OtherException (u "connection reset").

Definition broken_env : AuthEnv :=
  auth_env (fun token _ _ => broken token) broken broken.

Definition apple_request (token : str) (data : option dict) : AppleAuthRequest :=
  {| apple_id_token := token; user_data := data |}.

End Cases.

(** The notes of the first six stages, in stage order. *)
Definition progress_notes : list str :=
  [u "✅ Image data validated"; u "✅ API key found";
   u "✅ AI service initialized"; u "✅ Image content prepared";
   u "✅ Analysis request prepared"; u "✅ AI analysis completed"].

(* ================================================================== *)
(** * Properties of the Python values *)
(* ================================================================== *)

(** Literals are compared as written; where one has to be decoded the
    proofs say so with [vm_compute]. *)
Opaque u.

Lemma str_eqb_refl (s : str) : str_eqb s s = true.
Proof.
  induction s as [|c s IH]; simpl; [reflexivity|].
  now rewrite N.eqb_refl, IH.
Qed.

Lemma str_eqb_eq (a b : str) : str_eqb a b = true <-> a = b.
Proof.
  split; [|intros ->; apply str_eqb_refl].
  revert b; induction a as [|x a IH]; intros [|y b]; simpl; try easy.
  intros H. apply andb_prop in H as [Hx Hab].
  apply N.eqb_eq in Hx. f_equal; [exact Hx | now apply IH].
Qed.

Fixpoint pyval_eqb_refl (v : pyval) : pyval_eqb v v = true.
Proof.
  destruct v as [ |b|z|z|s|z|l|d]; simpl.
  - reflexivity.
  - now destruct b.
  - apply Z.eqb_refl.
  - apply Z.eqb_refl.
  - apply str_eqb_refl.
  - apply Z.eqb_refl.
  - induction l as [|x l IH]; [reflexivity|].
    now rewrite pyval_eqb_refl, IH.
  - induction d as [|[k x] d IH]; [reflexivity|].
    now rewrite str_eqb_refl, pyval_eqb_refl, IH.
Qed.

(** ** The document store *)

Lemma find_none_existsb {A} (f : A -> bool) (l : list A) :
  find f l = None -> existsb f l = false.
Proof.
  induction l as [|x l IH]; simpl; [reflexivity|].
  destruct (f x); [discriminate | exact IH].
Qed.

Lemma find_none_filter {A} (f : A -> bool) (l : list A) :
  find f l = None -> filter f l = [].
Proof.
  induction l as [|x l IH]; simpl; [reflexivity|].
  destruct (f x); [discriminate | exact IH].
Qed.

Lemma find_app_new {A} (f : A -> bool) (l : list A) (x : A) :
  find f l = None -> f x = true -> find f (l ++ [x]) = Some x.
Proof.
  induction l as [|y l IH]; simpl; intros Hnone Hx.
  - now rewrite Hx.
  - destruct (f y); [discriminate | now apply IH].
Qed.

(** A document the store returns for an id has an [_id], so it is not
    the empty document: [not user] holds only when nothing was found. *)
Lemma found_user_is_truthy (uid : pyval) (l : list dict) (doc : dict) :
  find (has_id uid) l = Some doc -> not_user (Some doc) = false.
Proof.
  intros H. apply find_some in H as [_ H].
  destruct doc; [discriminate H | reflexivity].
Qed.

(* ================================================================== *)
(** * The session issuer *)
(* ================================================================== *)

Lemma week_in_minutes :
  timedelta_minutes ACCESS_TOKEN_EXPIRE_MINUTES = (7 * microseconds_per_day)%Z.
Proof. reflexivity. Qed.

(** One run of the issuer: a clock read, then [jwt.encode]. *)
Lemma create_access_token_run
    (E : Type) (env : AuthEnv) (data : dict) (w : world) :
  create_access_token (E := E) env data w
  = (inr (jwt_encode env
            (dict_set data (u "exp")
               (PDatetime (clock env (ticks w) + 7 * microseconds_per_day)))
            (JWT_SECRET env) JWT_ALGORITHM),
     {| users := users w; ticks := S (ticks w) |}).
Proof.
  unfold create_access_token, bind, utcnow, ret.
  rewrite week_in_minutes. reflexivity.
Qed.

Lemma sub_then_exp (subject expiry : pyval) :
  dict_set [(u "sub", subject)] (u "exp") expiry
  = [(u "sub", subject); (u "exp", expiry)].
Proof.
  cbn [dict_set].
  replace (str_eqb (u "sub") (u "exp")) with false by (vm_compute; reflexivity).
  reflexivity.
Qed.

(** C9. For every subject id, [create_access_token] returns the token
    that [jwt.encode] signs, with the process secret and HS256, for the
    claims "sub" = the subject id and "exp" = the clock reading plus
    exactly seven days.  The token is a function of the subject, the
    clock reading and the secret, and the user store is left as it
    was. *)
Theorem create_access_token_one_week
    (E : Type) (env : AuthEnv) (subject : pyval) (w : world) :
  create_access_token (E := E) env [(u "sub", subject)] w
  = (inr (jwt_encode env
            [(u "sub", subject);
             (u "exp", PDatetime (clock env (ticks w) + 7 * microseconds_per_day))]
            (JWT_SECRET env) (u "HS256")),
     {| users := users w; ticks := S (ticks w) |}).
Proof.
  rewrite create_access_token_run, sub_then_exp. reflexivity.
Qed.

(* ================================================================== *)
(** * The current-user route *)
(* ================================================================== *)

Ltac run_auth :=
  unfold run_route, get_me, get_current_user, google_auth, apple_auth,
    try_except, try_except_Exception, bind, ret, raise, lift, call,
    find_one, respond.

(** C6. [GET /me] answers 401 when [jwt.decode] raises a [JWTError]
    (bad signature, expired token), 401 when the decoded claims hold no
    subject, 401 "User not found" when the subject has no document in
    the store, and otherwise returns the email, name and picture of the
    stored document; the store is not touched. *)
Theorem get_me_outcomes (env : AuthEnv) (token : str) (w : world) :
  (forall e,
      jwt_decode env token (JWT_SECRET env) [JWT_ALGORITHM] = inl e ->
      is_JWTError e = true ->
      run_route (get_me env token) w
      = (ResponseDetail 401 (u "Invalid authentication credentials"), w))
  /\ (forall payload,
      jwt_decode env token (JWT_SECRET env) [JWT_ALGORITHM] = inr payload ->
      dict_get payload (u "sub") = PNone ->
      run_route (get_me env token) w
      = (ResponseDetail 401 (u "Invalid authentication credentials"), w))
  /\ (forall payload,
      jwt_decode env token (JWT_SECRET env) [JWT_ALGORITHM] = inr payload ->
      dict_get payload (u "sub") <> PNone ->
      find (has_id (dict_get payload (u "sub"))) (users w) = None ->
      run_route (get_me env token) w
      = (ResponseDetail 401 (u "User not found"), w))
  /\ (forall payload record,
      jwt_decode env token (JWT_SECRET env) [JWT_ALGORITHM] = inr payload ->
      dict_get payload (u "sub") <> PNone ->
      find (has_id (dict_get payload (u "sub"))) (users w) = Some record ->
      run_route (get_me env token) w
      = (Response200 (profile (dict_get record (u "email"))
                              (dict_get record (u "name"))
                              (dict_get record (u "picture"))), w)).
Proof.
  repeat split.
  - intros e Hdec Hjwt. run_auth. rewrite Hdec, Hjwt. reflexivity.
  - intros payload Hdec Hsub. run_auth. rewrite Hdec, Hsub. reflexivity.
  - intros payload Hdec Hsub Hfind. run_auth. rewrite Hdec.
    destruct (dict_get payload (u "sub")) eqn:Hid;
      try (now elim Hsub); rewrite Hfind; reflexivity.
  - intros payload record Hdec Hsub Hfind. run_auth. rewrite Hdec.
    destruct (dict_get payload (u "sub")) eqn:Hid;
      try (now elim Hsub); rewrite Hfind; reflexivity.
Qed.

Lemma get_me_outcomes_witness :
  run_route (get_me Sample.auth_env (u "ada.forged")) Sample.store_with_ada
  = (ResponseDetail 401 (u "Invalid authentication credentials"), Sample.store_with_ada)
  /\ run_route (get_me Sample.auth_env (u ".k3y")) Sample.store_with_ada
     = (ResponseDetail 401 (u "Invalid authentication credentials"), Sample.store_with_ada)
  /\ run_route (get_me Sample.auth_env (u "bob.k3y")) Sample.store_with_ada
     = (ResponseDetail 401 (u "User not found"), Sample.store_with_ada)
  /\ run_route (get_me Sample.auth_env (u "ada.k3y")) Sample.store_with_ada
     = (Response200 (profile (PStr (u "ada@example.com")) (PStr (u "Ada")) PNone),
        Sample.store_with_ada).
Proof.
  split; [|split; [|split]].
  - apply (proj1 (get_me_outcomes Sample.auth_env (u "ada.forged") Sample.store_with_ada)
             (PyExc JWTError (u "Signature verification failed.")));
      reflexivity.
  - apply (proj1 (proj2 (get_me_outcomes Sample.auth_env (u ".k3y") Sample.store_with_ada))
             []); reflexivity.
  - apply (proj1 (proj2 (proj2
             (get_me_outcomes Sample.auth_env (u "bob.k3y") Sample.store_with_ada)))
             (Sample.claims_of (u "bob")));
      [reflexivity | discriminate | reflexivity].
  - apply (proj2 (proj2 (proj2
             (get_me_outcomes Sample.auth_env (u "ada.k3y") Sample.store_with_ada)))
             (Sample.claims_of (u "ada")) Sample.ada);
      [reflexivity | discriminate | reflexivity].
Defined.

(* ================================================================== *)
(** * Sign-in routes *)
(* ================================================================== *)

(** What [apple_auth] does once the claims are read: the rest of the
    handler never looks at the token again. *)
Lemma apple_auth_from_claims (env : AuthEnv) (a b : AppleAuthRequest) (w : world) :
  jwt_get_unverified_claims env (apple_id_token a)
  = jwt_get_unverified_claims env (apple_id_token b) ->
  user_data a = user_data b ->
  apple_auth env a w = apple_auth env b w.
Proof.
  intros Hclaims Hdata.
  unfold apple_auth, try_except_Exception, bind, call.
  rewrite Hclaims, Hdata. reflexivity.
Qed.

(** C8. Two Apple sign-in requests whose tokens carry the same
    unverified claims (and the same [user_data]) get the same response
    and leave the same store, whatever their signatures: the handler
    reads the claims with [jwt.get_unverified_claims] and consults no
    verifier. *)
Theorem apple_auth_depends_on_claims_only
    (env : AuthEnv) (a b : AppleAuthRequest) (w : world) :
  jwt_get_unverified_claims env (apple_id_token a)
  = jwt_get_unverified_claims env (apple_id_token b) ->
  user_data a = user_data b ->
  run_route (apple_auth env a) w = run_route (apple_auth env b) w.
Proof.
  intros Hclaims Hdata. unfold run_route.
  now rewrite (apple_auth_from_claims env a b w Hclaims Hdata).
Qed.

(** The sample verifier accepts the first token and rejects the second;
    the Apple route treats them alike. *)
Lemma apple_auth_depends_on_claims_only_witness :
  Sample.decode (u "eve.k3y") (u "k3y") [JWT_ALGORITHM] = inr (Sample.claims_of (u "eve"))
  /\ Sample.decode (u "eve.forged") (u "k3y") [JWT_ALGORITHM]
     = inl (PyExc JWTError (u "Signature verification failed."))
  /\ run_route (apple_auth Sample.auth_env
                  {| apple_id_token := u "eve.k3y"; user_data := None |})
               Sample.store_with_ada
     = run_route (apple_auth Sample.auth_env
                    {| apple_id_token := u "eve.forged"; user_data := None |})
                 Sample.store_with_ada.
Proof.
  split; [reflexivity | split; [reflexivity |]].
  apply (apple_auth_depends_on_claims_only Sample.auth_env
           {| apple_id_token := u "eve.k3y"; user_data := None |}
           {| apple_id_token := u "eve.forged"; user_data := None |}
           Sample.store_with_ada); reflexivity.
Defined.

(** C10. An Apple sign-in whose claims decode, with a subject and an
    email that are text or absent, whose subject has no document in
    the store and whose request has no [user_data] appends one
    document: the subject as [_id], the email claim (None when the
    token has none), the name "User", the provider "apple" and the
    creation time; the response carries the session token and that
    profile.  (The claims are restricted to the values the store is
    modelled on: the token is not verified, and for a subject that is
    an array or an integer beyond 64 bits the store refuses the
    document and the handler answers 500.) *)
Theorem apple_first_sign_in_without_user_data
    (env : AuthEnv) (request : AppleAuthRequest) (claims : dict) (w : world) :
  jwt_get_unverified_claims env (apple_id_token request) = inr claims ->
  text_fields claims [u "sub"; u "email"] = true ->
  find (has_id (dict_get claims (u "sub"))) (users w) = None ->
  user_data request = None ->
  run_route (apple_auth env request) w
  = (Response200
       {| access_token :=
            jwt_encode env
              [(u "sub", dict_get claims (u "sub"));
               (u "exp", PDatetime (clock env (S (ticks w)) + 7 * microseconds_per_day))]
              (JWT_SECRET env) (u "HS256");
          token_type := u "bearer";
          user := profile (dict_get claims (u "email")) (PStr (u "User")) PNone |},
     {| users := users w
                 ++ [[(u "_id", dict_get claims (u "sub"));
                      (u "email", dict_get claims (u "email"));
                      (u "name", PStr (u "User"));
                      (u "provider", PStr (u "apple"));
                      (u "created_at", PDatetime (clock env (ticks w)))]];
        ticks := S (S (ticks w)) |}).
Proof.
  intros Hclaims _ Hfind Hdata.
  run_auth. rewrite Hclaims, Hfind, Hdata.
  unfold not_user, user_data_given, utcnow, insert_one.
  cbn [andb users ticks].
  change (dict_get _ (u "_id")) with (dict_get claims (u "sub")).
  rewrite (find_none_existsb _ _ Hfind).
  rewrite create_access_token_run, sub_then_exp. reflexivity.
Qed.

Lemma apple_first_sign_in_without_user_data_witness :
  exists token record,
    run_route (apple_auth Sample.auth_env
                 {| apple_id_token := u "eve.unsigned"; user_data := None |})
              Sample.store_with_ada
    = (Response200
         {| access_token := token; token_type := u "bearer";
            user := profile (PStr (u "eve@example.com")) (PStr (u "User")) PNone |},
       {| users := [Sample.ada; record]; ticks := 7 |})
    /\ dict_get record (u "name") = PStr (u "User")
    /\ dict_get record (u "provider") = PStr (u "apple").
Proof.
  eexists; eexists; split.
  - apply (apple_first_sign_in_without_user_data Sample.auth_env
             {| apple_id_token := u "eve.unsigned"; user_data := None |}
             (Sample.claims_of (u "eve")) Sample.store_with_ada);
      [reflexivity | vm_compute; reflexivity | reflexivity | reflexivity].
  - split; reflexivity.
Defined.

(** A first Google sign-in for a subject the store does not know
    appends one document. *)
Lemma google_auth_new_user
    (env : AuthEnv) (request : GoogleAuthRequest) (idinfo : dict)
    (subject : pyval) (w : world) :
  verify_oauth2_token env (google_id_token request) = inr idinfo ->
  dict_lookup idinfo (u "sub") = Some subject ->
  find (has_id subject) (users w) = None ->
  users (snd (google_auth env request w))
  = users w
    ++ [[(u "_id", subject); (u "email", dict_get idinfo (u "email"));
         (u "name", dict_get idinfo (u "name"));
         (u "picture", dict_get idinfo (u "picture"));
         (u "provider", PStr (u "google"));
         (u "created_at", PDatetime (clock env (ticks w)))]].
Proof.
  intros Hverify Hsub Hfind.
  run_auth. unfold subscript. rewrite Hverify, Hsub. unfold ok.
  rewrite Hfind.
  unfold not_user, utcnow, insert_one. cbn [users ticks].
  change (dict_get _ (u "_id")) with subject.
  rewrite (find_none_existsb _ _ Hfind).
  rewrite create_access_token_run, sub_then_exp. reflexivity.
Qed.

(** A Google sign-in for a subject the store knows writes nothing. *)
Lemma google_auth_known_user
    (env : AuthEnv) (request : GoogleAuthRequest) (idinfo record : dict)
    (subject : pyval) (w : world) :
  verify_oauth2_token env (google_id_token request) = inr idinfo ->
  dict_lookup idinfo (u "sub") = Some subject ->
  find (has_id subject) (users w) = Some record ->
  users (snd (google_auth env request w)) = users w.
Proof.
  intros Hverify Hsub Hfind.
  run_auth. unfold subscript. rewrite Hverify, Hsub. unfold ok.
  rewrite Hfind, (found_user_is_truthy _ _ _ Hfind).
  rewrite create_access_token_run, sub_then_exp. reflexivity.
Qed.

(** The whole run of a Google sign-in for a subject the store knows:
    one clock read, for the token. *)
Lemma google_auth_known_run
    (env : AuthEnv) (request : GoogleAuthRequest) (idinfo record : dict)
    (subject : pyval) (w : world) :
  verify_oauth2_token env (google_id_token request) = inr idinfo ->
  dict_lookup idinfo (u "sub") = Some subject ->
  find (has_id subject) (users w) = Some record ->
  run_route (google_auth env request) w
  = (Response200
       {| access_token :=
            jwt_encode env
              [(u "sub", subject);
               (u "exp", PDatetime (clock env (ticks w) + 7 * microseconds_per_day))]
              (JWT_SECRET env) (u "HS256");
          token_type := u "bearer";
          user := profile (dict_get idinfo (u "email")) (dict_get idinfo (u "name"))
                          (dict_get idinfo (u "picture")) |},
     {| users := users w; ticks := S (ticks w) |}).
Proof.
  intros Hverify Hsub Hfind.
  run_auth. unfold subscript. rewrite Hverify, Hsub. unfold ok.
  rewrite Hfind, (found_user_is_truthy _ _ _ Hfind).
  rewrite create_access_token_run, sub_then_exp. reflexivity.
Qed.

(** The whole run for a subject the store does not know: two clock
    reads, for the document and for the token. *)
Lemma google_auth_new_run
    (env : AuthEnv) (request : GoogleAuthRequest) (idinfo : dict)
    (subject : pyval) (w : world) :
  verify_oauth2_token env (google_id_token request) = inr idinfo ->
  dict_lookup idinfo (u "sub") = Some subject ->
  find (has_id subject) (users w) = None ->
  run_route (google_auth env request) w
  = (Response200
       {| access_token :=
            jwt_encode env
              [(u "sub", subject);
               (u "exp", PDatetime (clock env (S (ticks w)) + 7 * microseconds_per_day))]
              (JWT_SECRET env) (u "HS256");
          token_type := u "bearer";
          user := profile (dict_get idinfo (u "email")) (dict_get idinfo (u "name"))
                          (dict_get idinfo (u "picture")) |},
     {| users := users w
                 ++ [[(u "_id", subject); (u "email", dict_get idinfo (u "email"));
                      (u "name", dict_get idinfo (u "name"));
                      (u "picture", dict_get idinfo (u "picture"));
                      (u "provider", PStr (u "google"));
                      (u "created_at", PDatetime (clock env (ticks w)))]];
        ticks := S (S (ticks w)) |}).
Proof.
  intros Hverify Hsub Hfind.
  run_auth. unfold subscript. rewrite Hverify, Hsub. unfold ok.
  rewrite Hfind.
  unfold not_user, utcnow, insert_one. cbn [users ticks].
  change (dict_get _ (u "_id")) with subject.
  rewrite (find_none_existsb _ _ Hfind).
  rewrite create_access_token_run, sub_then_exp. reflexivity.
Qed.

(** Sign-ins for a subject the store knows, one after the other: each
    is answered with a token issued at the next clock read and the
    profile of its own identity token, and the documents stay as they
    are. *)
Lemma serve_google_responses_known
    (env : AuthEnv) (subject : pyval) (record : dict)
    (later : list GoogleAuthRequest) :
  (forall request, In request later ->
     exists idinfo,
       verify_oauth2_token env (google_id_token request) = inr idinfo
       /\ dict_lookup idinfo (u "sub") = Some subject) ->
  forall w,
    find (has_id subject) (users w) = Some record ->
    List.length (fst (serve_google_responses env later w)) = List.length later
    /\ (forall i request,
          nth_error later i = Some request ->
          exists idinfo,
            verify_oauth2_token env (google_id_token request) = inr idinfo
            /\ nth_error (fst (serve_google_responses env later w)) i
               = Some (Response200
                         {| access_token :=
                              jwt_encode env
                                [(u "sub", subject);
                                 (u "exp", PDatetime (clock env (ticks w + i)
                                                      + 7 * microseconds_per_day))]
                                (JWT_SECRET env) (u "HS256");
                            token_type := u "bearer";
                            user := profile (dict_get idinfo (u "email"))
                                            (dict_get idinfo (u "name"))
                                            (dict_get idinfo (u "picture")) |}))
    /\ snd (serve_google_responses env later w)
       = {| users := users w; ticks := ticks w + List.length later |}.
Proof.
  induction later as [|request later IH]; intros Hvalid w Hfind.
  - cbn [serve_google_responses fst snd List.length].
    split; [reflexivity | split].
    + intros [|i] r Hr; discriminate Hr.
    + rewrite Nat.add_0_r. now destruct w.
  - destruct (Hvalid request (or_introl eq_refl)) as (idinfo & Hverify & Hsub).
    cbn [serve_google_responses].
    rewrite (google_auth_known_run env request idinfo record subject w Hverify Hsub Hfind).
    assert (Hlater : forall r, In r later ->
              exists idinfo',
                verify_oauth2_token env (google_id_token r) = inr idinfo'
                /\ dict_lookup idinfo' (u "sub") = Some subject)
      by (intros r Hr; apply Hvalid; now right).
    destruct (IH Hlater {| users := users w; ticks := S (ticks w) |} Hfind)
      as (Hlen & Hnth & Hend).
    destruct (serve_google_responses env later {| users := users w; ticks := S (ticks w) |})
      as [responses w2].
    cbn [fst snd users ticks List.length] in *.
    split; [now rewrite Hlen | split].
    + intros [|i] r Hr; cbn [nth_error] in *.
      * injection Hr as <-. exists idinfo. split; [exact Hverify|].
        now rewrite Nat.add_0_r.
      * destruct (Hnth i r Hr) as (idinfo' & Hverify' & Hanswer).
        exists idinfo'. split; [exact Hverify'|].
        rewrite Hanswer. now rewrite Nat.add_succ_r.
    + rewrite Hend. now rewrite Nat.add_succ_r.
Qed.

(** C7. Google sign-ins with valid tokens for one subject (text, as
    Google issues it), served one after the other.  The first is
    answered 200 and leaves a document for the subject: the one the
    store had, or, for a subject not seen before, the one it creates
    from the token.  Every later one is answered 200 as well, with a
    session token for the subject and the profile of its own identity
    token: it finds the document instead of inserting, so the store's
    refusal of a duplicate is not met, and after any number of them
    the documents are exactly those the first sign-in left, the clock
    having been read once per sign-in.  For a subject not seen before,
    the created document is the only one for the subject. *)
Theorem google_sign_in_creates_once
    (env : AuthEnv) (first : GoogleAuthRequest) (later : list GoogleAuthRequest)
    (idinfo : dict) (subject : pyval) (w : world) :
  verify_oauth2_token env (google_id_token first) = inr idinfo ->
  dict_lookup idinfo (u "sub") = Some subject ->
  text_fields idinfo [u "sub"; u "email"; u "name"; u "picture"] = true ->
  (forall request, In request later ->
     exists idinfo',
       verify_oauth2_token env (google_id_token request) = inr idinfo'
       /\ dict_lookup idinfo' (u "sub") = Some subject) ->
  let signed_in (n : nat) (info : dict) : http_response AuthResponse :=
    Response200
      {| access_token :=
           jwt_encode env
             [(u "sub", subject);
              (u "exp", PDatetime (clock env n + 7 * microseconds_per_day))]
             (JWT_SECRET env) (u "HS256");
         token_type := u "bearer";
         user := profile (dict_get info (u "email")) (dict_get info (u "name"))
                         (dict_get info (u "picture")) |} in
  let created : dict :=
    [(u "_id", subject); (u "email", dict_get idinfo (u "email"));
     (u "name", dict_get idinfo (u "name"));
     (u "picture", dict_get idinfo (u "picture"));
     (u "provider", PStr (u "google"));
     (u "created_at", PDatetime (clock env (ticks w)))] in
  let known := find (has_id subject) (users w) in
  let record := match known with Some record => record | None => created end in
  let issued := match known with Some _ => ticks w | None => S (ticks w) end in
  let w1 :=
    {| users := match known with Some _ => users w | None => users w ++ [created] end;
       ticks := S issued |} in
  let served := serve_google_responses env later w1 in
  run_route (google_auth env first) w = (signed_in issued idinfo, w1)
  /\ find (has_id subject) (users w1) = Some record
  /\ (known = None -> filter (has_id subject) (users w1) = [created])
  /\ List.length (fst served) = List.length later
  /\ (forall i request,
        nth_error later i = Some request ->
        exists idinfo',
          verify_oauth2_token env (google_id_token request) = inr idinfo'
          /\ nth_error (fst served) i = Some (signed_in (ticks w1 + i) idinfo'))
  /\ snd served = {| users := users w1; ticks := ticks w1 + List.length later |}.
Proof.
  intros Hverify Hsub _ Hlater signed_in created known record issued w1 served.
  assert (Hcreated : has_id subject created = true).
  { unfold has_id, created. cbn [dict_lookup].
    change (str_eqb (u "_id") (u "_id")) with true.
    cbn iota. apply pyval_eqb_refl. }
  assert (Hfirst : run_route (google_auth env first) w = (signed_in issued idinfo, w1)
                   /\ find (has_id subject) (users w1) = Some record
                   /\ (known = None -> filter (has_id subject) (users w1) = [created])).
  { subst w1 record issued. destruct known as [found|] eqn:Hfind; subst known.
    - split; [|split; [exact Hfind | discriminate]].
      exact (google_auth_known_run env first idinfo found subject w Hverify Hsub Hfind).
    - split; [|split].
      + exact (google_auth_new_run env first idinfo subject w Hverify Hsub Hfind).
      + cbn [users]. apply find_app_new; [exact Hfind | exact Hcreated].
      + intros _. cbn [users].
        rewrite filter_app, (find_none_filter _ _ Hfind).
        cbn [filter app]. now rewrite Hcreated. }
  destruct Hfirst as (Hrun & Hfound & Hone).
  destruct (serve_google_responses_known env subject record later Hlater w1 Hfound)
    as (Hlen & Hnth & Hend).
  split; [exact Hrun | split; [exact Hfound | split; [exact Hone | split; [exact Hlen |]]]].
  split; [exact Hnth | exact Hend].
Qed.

(** Three sign-ins for a subject the sample store does not know: one
    document is created, and each of the three is answered 200. *)
Lemma google_sign_in_creates_once_witness :
  exists record,
    status_of (fst (run_route (google_auth Sample.auth_env
                                 {| google_id_token := u "google:bob" |})
                      Sample.store_with_ada))
    = 200%Z
    /\ users (snd (run_route (google_auth Sample.auth_env
                                {| google_id_token := u "google:bob" |})
                     Sample.store_with_ada))
       = [Sample.ada; record]
    /\ map status_of
         (fst (serve_google_responses Sample.auth_env
                 [{| google_id_token := u "google:bob" |};
                  {| google_id_token := u "google:bob" |}]
                 {| users := [Sample.ada; record]; ticks := 7 |}))
       = [200; 200]%Z
    /\ snd (serve_google_responses Sample.auth_env
              [{| google_id_token := u "google:bob" |};
               {| google_id_token := u "google:bob" |}]
              {| users := [Sample.ada; record]; ticks := 7 |})
       = {| users := [Sample.ada; record]; ticks := 9 |}.
Proof.
  pose proof (google_sign_in_creates_once Sample.auth_env
                {| google_id_token := u "google:bob" |}
                [{| google_id_token := u "google:bob" |};
                 {| google_id_token := u "google:bob" |}]
                [(u "sub", PStr (u "bob")); (u "email", PStr (u "ada@example.com"));
                 (u "name", PStr (u "Ada"))]
                (PStr (u "bob")) Sample.store_with_ada) as Hclaim.
  destruct Hclaim as (Hfirst & _).
  - reflexivity.
  - reflexivity.
  - vm_compute; reflexivity.
  - intros request [<-|[<-|[]]]; eexists; split; reflexivity.
  - exists [(u "_id", PStr (u "bob")); (u "email", PStr (u "ada@example.com"));
            (u "name", PStr (u "Ada")); (u "picture", PNone);
            (u "provider", PStr (u "google"));
            (u "created_at", PDatetime 1700000000000005)].
    rewrite Hfirst.
    split; [reflexivity | split; [vm_compute; reflexivity | split]].
    + vm_compute. reflexivity.
    + vm_compute. reflexivity.
Defined.

(* ================================================================== *)
(** * The analysis pipeline *)
(* ================================================================== *)

Ltac run_pipeline :=
  unfold post_analyze, calls_made, analyze_image, try_except,
    try_except_Exception, bind, ret, raise, lift, call, log, fail,
    outgoing_call, set_response_text, get_response_text, respond,
    initial_locals.


Ltac reduce :=
  cbv beta iota zeta; cbn [app error_logs response_text outgoing firstn].

Ltac close_run := unfold progress_notes; reduce; reflexivity.

(** The handler treats [response] both as an object with a [text]
    property and as a [str]; no value is both. *)
Lemma response_with_text_has_no_strip (response : pyobj) (reply : str) :
  getattr_text response = inr reply ->
  call_strip response = inl (PyExc AttributeError strip_error).
Proof.
  destruct response as [s|r]; unfold getattr_text, call_strip, throw;
    [discriminate | reflexivity].
Qed.

(** ** One lemma per way of leaving the pipeline

    Each gives the exception raised and the handler's final locals; the
    log is written as the notes of the completed stages followed by the
    note of the failure. *)
Section Stages.

Variables (env : AnalyzeEnv) (request : ScamAnalysisRequest).

Let prompt : str := system_message env ++ nl ++ nl ++ user_instruction.
Let configure : genai_call := Configure (GOOGLE_API_KEY env).
Let new_model : genai_call := NewModel (u "gemini-1.5-flash").

Lemma run_empty_image :
  image_base64 request = [] ->
  analyze_image env request initial_locals
  = (inl (HTTPException 400
            (DetailDict (u "Invalid Image")
               (u "The image data is empty or invalid. Please try uploading a different image."))),
     {| error_logs := firstn 0 progress_notes ++ [u "❌ Empty image data received"];
        response_text := []; outgoing := [] |}).
Proof. intros Himage. run_pipeline. rewrite Himage. close_run. Qed.

Hypothesis Himage : image_base64 request <> [].

Lemma run_no_api_key :
  GOOGLE_API_KEY env = [] ->
  analyze_image env request initial_locals
  = (inl (HTTPException 500
            (DetailDict (u "Configuration Error")
               (u "AI service is not properly configured. Please contact support."))),
     {| error_logs := firstn 1 progress_notes ++ [u "❌ API key not configured"];
        response_text := []; outgoing := [] |}).
Proof.
  intros Hkey. run_pipeline.
  destruct (image_base64 request); [now elim Himage|].
  rewrite Hkey. close_run.
Qed.

Hypothesis Hkey : GOOGLE_API_KEY env <> [].

Lemma run_configure_raises (e : pyexc) :
  genai_configure env (GOOGLE_API_KEY env) = inl e ->
  analyze_image env request initial_locals
  = (inl (HTTPException 500
            (DetailDict (u "AI Service Error")
               (u "Could not connect to AI service: " ++ exc_str e))),
     {| error_logs := firstn 2 progress_notes
                      ++ [u "❌ Failed to initialize AI service: " ++ exc_str e];
        response_text := []; outgoing := [configure] |}).
Proof.
  intros Hconf. run_pipeline.
  destruct (image_base64 request); [now elim Himage|].
  destruct (GOOGLE_API_KEY env); [now elim Hkey|].
  rewrite Hconf. close_run.
Qed.

Hypothesis Hconfigure : genai_configure env (GOOGLE_API_KEY env) = inr tt.

Lemma run_model_raises (e : pyexc) :
  genai_GenerativeModel env (u "gemini-1.5-flash") = inl e ->
  analyze_image env request initial_locals
  = (inl (HTTPException 500
            (DetailDict (u "AI Service Error")
               (u "Could not connect to AI service: " ++ exc_str e))),
     {| error_logs := firstn 2 progress_notes
                      ++ [u "❌ Failed to initialize AI service: " ++ exc_str e];
        response_text := []; outgoing := [configure; new_model] |}).
Proof.
  intros Hmodel. run_pipeline.
  destruct (image_base64 request); [now elim Himage|].
  destruct (GOOGLE_API_KEY env); [now elim Hkey|].
  rewrite Hconfigure, Hmodel. close_run.
Qed.

Variable model : GenerativeModel.
Hypothesis Hmodel : genai_GenerativeModel env (u "gemini-1.5-flash") = inr model.

Lemma run_decode_raises (e : pyexc) :
  b64decode (image_base64 request) = inl e ->
  analyze_image env request initial_locals
  = (inl (HTTPException 400
            (DetailDict (u "Image Processing Error")
               (u "Failed to process the image: " ++ exc_str e
                ++ u ". Make sure you're uploading a valid image file."))),
     {| error_logs := firstn 3 progress_notes
                      ++ [u "❌ Failed to process image: " ++ exc_str e];
        response_text := []; outgoing := [configure; new_model] |}).
Proof.
  intros Hdecode. run_pipeline.
  destruct (image_base64 request); [now elim Himage|].
  destruct (GOOGLE_API_KEY env); [now elim Hkey|].
  rewrite Hconfigure, Hmodel. reduce. rewrite Hdecode. close_run.
Qed.

Variable image_data : bytes.
Hypothesis Hdecode : b64decode (image_base64 request) = inr image_data.

Let generate : genai_call := GenerateContent prompt (u "image/jpeg") image_data.

Lemma run_generate_raises (e : pyexc) :
  generate_content env model prompt (u "image/jpeg") image_data = inl e ->
  analyze_image env request initial_locals
  = (inl (HTTPException 500
            (DetailDict (u "AI Analysis Failed")
               (u "The AI service encountered an error: " ++ exc_str e
                ++ u ". This might be a temporary issue - please try again."))),
     {| error_logs := firstn 5 progress_notes
                      ++ [u "❌ AI analysis failed: " ++ exc_str e];
        response_text := []; outgoing := [configure; new_model; generate] |}).
Proof.
  intros Hgen. run_pipeline.
  destruct (image_base64 request); [now elim Himage|].
  destruct (GOOGLE_API_KEY env); [now elim Hkey|].
  rewrite Hconfigure, Hmodel. reduce. rewrite Hdecode. reduce.
  subst prompt. rewrite Hgen. close_run.
Qed.

Variable response : pyobj.
Hypothesis Hgenerate :
  generate_content env model prompt (u "image/jpeg") image_data = inr response.

Lemma run_text_raises (e : pyexc) :
  getattr_text response = inl e ->
  analyze_image env request initial_locals
  = (inl (HTTPException 500
            (DetailDict (u "AI Analysis Failed")
               (u "The AI service encountered an error: " ++ exc_str e
                ++ u ". This might be a temporary issue - please try again."))),
     {| error_logs := firstn 6 progress_notes
                      ++ [u "❌ AI analysis failed: " ++ exc_str e];
        response_text := []; outgoing := [configure; new_model; generate] |}).
Proof.
  intros Htext. run_pipeline.
  destruct (image_base64 request); [now elim Himage|].
  destruct (GOOGLE_API_KEY env); [now elim Hkey|].
  rewrite Hconfigure, Hmodel. reduce. rewrite Hdecode. reduce.
  subst prompt. rewrite Hgenerate. reduce. rewrite Htext. close_run.
Qed.

(** Once [response.text] has returned, [response.strip()] raises
    [AttributeError]; neither [except] clause of the parsing block
    catches it and the outer handler reports it. *)
Lemma run_strip_raises (reply : str) :
  getattr_text response = inr reply ->
  analyze_image env request initial_locals
  = (inl (HTTPException 500
            (DetailDict (u "Unexpected Error")
               (u "An unexpected error occurred: " ++ strip_error
                ++ u ". Please try again or contact support if the issue persists."))),
     {| error_logs := firstn 6 progress_notes
                      ++ [u "❌ Unexpected error: " ++ strip_error];
        response_text := reply; outgoing := [configure; new_model; generate] |}).
Proof.
  intros Htext. run_pipeline.
  destruct (image_base64 request); [now elim Himage|].
  destruct (GOOGLE_API_KEY env); [now elim Hkey|].
  rewrite Hconfigure, Hmodel. reduce. rewrite Hdecode. reduce.
  subst prompt. rewrite Hgenerate. reduce. rewrite Htext. reduce.
  rewrite (response_with_text_has_no_strip response reply Htext). close_run.
Qed.

End Stages.

Ltac answer lemma :=
  unfold post_analyze; rewrite lemma; cbn [respond error_logs].

Lemma match_nonempty {A B} (l : list A) (a b : B) :
  l <> [] -> match l with [] => a | _ :: _ => b end = b.
Proof. destruct l; [intros H; now elim H | reflexivity]. Qed.

(** The eight exits together.  Which one is taken is decided by the
    payload, the key and the answers of the collaborators, looked at
    in this order; each leaves the exception of its stage, the notes
    of the stages completed before it followed by its own, and the
    calls made so far. *)
Lemma analyze_image_by_stage (env : AnalyzeEnv) (request : ScamAnalysisRequest) :
  analyze_image env request initial_locals
  = match image_base64 request with
    | [] =>
      (inl (HTTPException 400
              (DetailDict (u "Invalid Image")
                 (u "The image data is empty or invalid. Please try uploading a different image."))),
       {| error_logs := firstn 0 progress_notes ++ [u "❌ Empty image data received"];
          response_text := []; outgoing := [] |})
    | _ :: _ =>
    match GOOGLE_API_KEY env with
    | [] =>
      (inl (HTTPException 500
              (DetailDict (u "Configuration Error")
                 (u "AI service is not properly configured. Please contact support."))),
       {| error_logs := firstn 1 progress_notes ++ [u "❌ API key not configured"];
          response_text := []; outgoing := [] |})
    | _ :: _ =>
    match genai_configure env (GOOGLE_API_KEY env) with
    | inl e =>
      (inl (HTTPException 500
              (DetailDict (u "AI Service Error")
                 (u "Could not connect to AI service: " ++ exc_str e))),
       {| error_logs := firstn 2 progress_notes
                        ++ [u "❌ Failed to initialize AI service: " ++ exc_str e];
          response_text := []; outgoing := [Configure (GOOGLE_API_KEY env)] |})
    | inr _ =>
    match genai_GenerativeModel env (u "gemini-1.5-flash") with
    | inl e =>
      (inl (HTTPException 500
              (DetailDict (u "AI Service Error")
                 (u "Could not connect to AI service: " ++ exc_str e))),
       {| error_logs := firstn 2 progress_notes
                        ++ [u "❌ Failed to initialize AI service: " ++ exc_str e];
          response_text := [];
          outgoing := [Configure (GOOGLE_API_KEY env); NewModel (u "gemini-1.5-flash")] |})
    | inr model =>
    match b64decode (image_base64 request) with
    | inl e =>
      (inl (HTTPException 400
              (DetailDict (u "Image Processing Error")
                 (u "Failed to process the image: " ++ exc_str e
                  ++ u ". Make sure you're uploading a valid image file."))),
       {| error_logs := firstn 3 progress_notes
                        ++ [u "❌ Failed to process image: " ++ exc_str e];
          response_text := [];
          outgoing := [Configure (GOOGLE_API_KEY env); NewModel (u "gemini-1.5-flash")] |})
    | inr image_data =>
    match generate_content env model
            (system_message env ++ nl ++ nl ++ user_instruction)
            (u "image/jpeg") image_data with
    | inl e =>
      (inl (HTTPException 500
              (DetailDict (u "AI Analysis Failed")
                 (u "The AI service encountered an error: " ++ exc_str e
                  ++ u ". This might be a temporary issue - please try again."))),
       {| error_logs := firstn 5 progress_notes
                        ++ [u "❌ AI analysis failed: " ++ exc_str e];
          response_text := [];
          outgoing := [Configure (GOOGLE_API_KEY env); NewModel (u "gemini-1.5-flash");
                       GenerateContent
                         (system_message env ++ nl ++ nl ++ user_instruction)
                         (u "image/jpeg") image_data] |})
    | inr response =>
    match getattr_text response with
    | inl e =>
      (inl (HTTPException 500
              (DetailDict (u "AI Analysis Failed")
                 (u "The AI service encountered an error: " ++ exc_str e
                  ++ u ". This might be a temporary issue - please try again."))),
       {| error_logs := firstn 6 progress_notes
                        ++ [u "❌ AI analysis failed: " ++ exc_str e];
          response_text := [];
          outgoing := [Configure (GOOGLE_API_KEY env); NewModel (u "gemini-1.5-flash");
                       GenerateContent
                         (system_message env ++ nl ++ nl ++ user_instruction)
                         (u "image/jpeg") image_data] |})
    | inr reply =>
      (inl (HTTPException 500
              (DetailDict (u "Unexpected Error")
                 (u "An unexpected error occurred: " ++ strip_error
                  ++ u ". Please try again or contact support if the issue persists."))),
       {| error_logs := firstn 6 progress_notes
                        ++ [u "❌ Unexpected error: " ++ strip_error];
          response_text := reply;
          outgoing := [Configure (GOOGLE_API_KEY env); NewModel (u "gemini-1.5-flash");
                       GenerateContent
                         (system_message env ++ nl ++ nl ++ user_instruction)
                         (u "image/jpeg") image_data] |})
    end end end end end end end.
Proof.
  destruct (list_eq_dec N.eq_dec (image_base64 request) []) as [Himage|Himage].
  { rewrite (run_empty_image env request Himage), Himage. reflexivity. }
  rewrite (match_nonempty (image_base64 request) _ _ Himage).
  destruct (list_eq_dec N.eq_dec (GOOGLE_API_KEY env) []) as [Hkey|Hkey].
  { rewrite (run_no_api_key env request Himage Hkey), Hkey. reflexivity. }
  rewrite (match_nonempty (GOOGLE_API_KEY env) _ _ Hkey).
  destruct (genai_configure env (GOOGLE_API_KEY env)) as [e|[]] eqn:Hconf.
  { exact (run_configure_raises env request Himage Hkey e Hconf). }
  destruct (genai_GenerativeModel env (u "gemini-1.5-flash")) as [e|model] eqn:Hmodel.
  { exact (run_model_raises env request Himage Hkey Hconf e Hmodel). }
  destruct (b64decode (image_base64 request)) as [e|image_data] eqn:Hdecode.
  { exact (run_decode_raises env request Himage Hkey Hconf model Hmodel e Hdecode). }
  destruct (generate_content env model
              (system_message env ++ nl ++ nl ++ user_instruction)
              (u "image/jpeg") image_data) as [e|response] eqn:Hgen.
  { exact (run_generate_raises env request Himage Hkey Hconf model Hmodel
             image_data Hdecode e Hgen). }
  destruct (getattr_text response) as [e|reply] eqn:Htext.
  { exact (run_text_raises env request Himage Hkey Hconf model Hmodel
             image_data Hdecode response Hgen e Htext). }
  exact (run_strip_raises env request Himage Hkey Hconf model Hmodel
           image_data Hdecode response Hgen reply Htext).
Qed.

(** C2. A request with an empty [image_base64] is answered 400 "Invalid
    Image" by the first stage: the response and its one-note log are the
    same for every configuration and every collaborator, and no call
    leaves the process. *)
Theorem empty_image_rejected_first (env : AnalyzeEnv) :
  post_analyze env {| image_base64 := [] |}
  = ResponseError 400 (u "Invalid Image")
      (u "The image data is empty or invalid. Please try uploading a different image.")
      [u "❌ Empty image data received"]
  /\ calls_made env {| image_base64 := [] |} = [].
Proof.
  pose proof (run_empty_image env {| image_base64 := [] |} eq_refl) as Hrun.
  split.
  - answer Hrun. close_run.
  - unfold calls_made. rewrite Hrun. reflexivity.
Qed.

Ltac failure lemma :=
  answer lemma; do 5 eexists;
  split; [reflexivity | split; [discriminate | vm_compute; reflexivity]].

(** Every run is one of the eight above. *)
Lemma post_analyze_always_fails (env : AnalyzeEnv) (request : ScamAnalysisRequest) :
  exists status error details k note,
    post_analyze env request
    = ResponseError status error details (firstn k progress_notes ++ [note])
    /\ status <> 200%Z
    /\ startswith note (u "❌") = true.
Proof.
  destruct (list_eq_dec N.eq_dec (image_base64 request) []) as [Himage|Himage].
  { failure (run_empty_image env request Himage). }
  destruct (list_eq_dec N.eq_dec (GOOGLE_API_KEY env) []) as [Hkey|Hkey].
  { failure (run_no_api_key env request Himage Hkey). }
  destruct (genai_configure env (GOOGLE_API_KEY env)) as [e|[]] eqn:Hconf.
  { failure (run_configure_raises env request Himage Hkey e Hconf). }
  destruct (genai_GenerativeModel env (u "gemini-1.5-flash")) as [e|model] eqn:Hmodel.
  { failure (run_model_raises env request Himage Hkey Hconf e Hmodel). }
  destruct (b64decode (image_base64 request)) as [e|image_data] eqn:Hdecode.
  { failure (run_decode_raises env request Himage Hkey Hconf model Hmodel e Hdecode). }
  destruct (generate_content env model
              (system_message env ++ nl ++ nl ++ user_instruction)
              (u "image/jpeg") image_data) as [e|response] eqn:Hgen.
  { failure (run_generate_raises env request Himage Hkey Hconf model Hmodel
               image_data Hdecode e Hgen). }
  destruct (getattr_text response) as [e|reply] eqn:Htext.
  { failure (run_text_raises env request Himage Hkey Hconf model Hmodel
               image_data Hdecode response Hgen e Htext). }
  failure (run_strip_raises env request Himage Hkey Hconf model Hmodel
             image_data Hdecode response Hgen reply Htext).
Qed.

(** No request is ever answered 200: the parsing block is entered only
    after [response.text] returned, and then [response.strip()]
    raises. *)
Lemma post_analyze_never_200
    (env : AnalyzeEnv) (request : ScamAnalysisRequest) (result : ScamAnalysisResponse) :
  post_analyze env request <> Response200 result.
Proof.
  destruct (post_analyze_always_fails env request)
    as (status & error & details & k & note & Hrun & _).
  rewrite Hrun. discriminate.
Qed.

Ltac by_stage env request :=
  rewrite analyze_image_by_stage;
  destruct (image_base64 request) as [|? ?]; [reflexivity|];
  destruct (GOOGLE_API_KEY env) as [|? ?]; [reflexivity|];
  destruct (genai_configure env _) as [?|[]]; [reflexivity|];
  destruct (genai_GenerativeModel env (u "gemini-1.5-flash")) as [?|?];
    [reflexivity|];
  destruct (b64decode _) as [?|?]; [reflexivity|];
  destruct (generate_content env _ _ _ _) as [?|?]; [reflexivity|];
  destruct (getattr_text _) as [?|?]; reflexivity.

(** C4. What the caller receives, stage by stage.  The stage that
    fails decides the whole response: its status, its error kind, its
    details, and a log made of the notes of the stages completed
    before it, in stage order, followed by the note of the failure.
    The response is the structured error alone, with no analysis
    result beside it.  The last exit is the parsing block, which
    fails on every reply (see C1), so no run reaches the return; there
    the handler returns the result alone and the log is dropped, as
    the second part says of any result. *)
Theorem analyze_failure_carries_log (env : AnalyzeEnv) (request : ScamAnalysisRequest) :
  let failed (status : Z) (error details : str) (completed : nat) (note : str)
      : http_response ScamAnalysisResponse :=
    ResponseError status error details (firstn completed progress_notes ++ [note]) in
  post_analyze env request
  = match image_base64 request with
    | [] =>
      failed 400%Z (u "Invalid Image")
        (u "The image data is empty or invalid. Please try uploading a different image.")
        0 (u "❌ Empty image data received")
    | _ :: _ =>
    match GOOGLE_API_KEY env with
    | [] =>
      failed 500%Z (u "Configuration Error")
        (u "AI service is not properly configured. Please contact support.")
        1 (u "❌ API key not configured")
    | _ :: _ =>
    match genai_configure env (GOOGLE_API_KEY env) with
    | inl e =>
      failed 500%Z (u "AI Service Error")
        (u "Could not connect to AI service: " ++ exc_str e)
        2 (u "❌ Failed to initialize AI service: " ++ exc_str e)
    | inr _ =>
    match genai_GenerativeModel env (u "gemini-1.5-flash") with
    | inl e =>
      failed 500%Z (u "AI Service Error")
        (u "Could not connect to AI service: " ++ exc_str e)
        2 (u "❌ Failed to initialize AI service: " ++ exc_str e)
    | inr model =>
    match b64decode (image_base64 request) with
    | inl e =>
      failed 400%Z (u "Image Processing Error")
        (u "Failed to process the image: " ++ exc_str e
         ++ u ". Make sure you're uploading a valid image file.")
        3 (u "❌ Failed to process image: " ++ exc_str e)
    | inr image_data =>
    match generate_content env model
            (system_message env ++ nl ++ nl ++ user_instruction)
            (u "image/jpeg") image_data with
    | inl e =>
      failed 500%Z (u "AI Analysis Failed")
        (u "The AI service encountered an error: " ++ exc_str e
         ++ u ". This might be a temporary issue - please try again.")
        5 (u "❌ AI analysis failed: " ++ exc_str e)
    | inr response =>
    match getattr_text response with
    | inl e =>
      failed 500%Z (u "AI Analysis Failed")
        (u "The AI service encountered an error: " ++ exc_str e
         ++ u ". This might be a temporary issue - please try again.")
        6 (u "❌ AI analysis failed: " ++ exc_str e)
    | inr _ =>
      failed 500%Z (u "Unexpected Error")
        (u "An unexpected error occurred: " ++ strip_error
         ++ u ". Please try again or contact support if the issue persists.")
        6 (u "❌ Unexpected error: " ++ strip_error)
    end end end end end end end
  /\ forall (result : ScamAnalysisResponse) (logs : list str),
       respond (inr result) logs = Response200 result.
Proof.
  intros failed. split; [|reflexivity].
  subst failed. unfold post_analyze. by_stage env request.
Qed.

(** ** Undecodable payloads *)

(** C3, as the code has it.  A non-empty payload that
    [base64.b64decode] rejects is never answered 200 and never reaches
    the model, whatever the configuration: the answer is a structured
    error with status 400 or 500.  It is the decode stage that answers,
    with 400 "Image Processing Error", the decoder's message and the
    notes of the three stages before it, exactly when the key is
    configured and the client is built; without a key, or when the
    client cannot be built, those stages answer 500 first. *)
Theorem undecodable_image_rejected
    (env : AnalyzeEnv) (request : ScamAnalysisRequest) (e : pyexc) :
  image_base64 request <> [] ->
  b64decode (image_base64 request) = inl e ->
  (status_of (post_analyze env request) = 400%Z
   \/ status_of (post_analyze env request) = 500%Z)
  /\ (forall result, post_analyze env request <> Response200 result)
  /\ (forall prompt mime_type data,
        ~ In (GenerateContent prompt mime_type data) (calls_made env request))
  /\ (post_analyze env request, calls_made env request)
     = match GOOGLE_API_KEY env with
       | [] =>
         (ResponseError 500 (u "Configuration Error")
            (u "AI service is not properly configured. Please contact support.")
            [u "✅ Image data validated"; u "❌ API key not configured"],
          [])
       | _ :: _ =>
       match genai_configure env (GOOGLE_API_KEY env) with
       | inl failure =>
         (ResponseError 500 (u "AI Service Error")
            (u "Could not connect to AI service: " ++ exc_str failure)
            [u "✅ Image data validated"; u "✅ API key found";
             u "❌ Failed to initialize AI service: " ++ exc_str failure],
          [Configure (GOOGLE_API_KEY env)])
       | inr _ =>
       match genai_GenerativeModel env (u "gemini-1.5-flash") with
       | inl failure =>
         (ResponseError 500 (u "AI Service Error")
            (u "Could not connect to AI service: " ++ exc_str failure)
            [u "✅ Image data validated"; u "✅ API key found";
             u "❌ Failed to initialize AI service: " ++ exc_str failure],
          [Configure (GOOGLE_API_KEY env); NewModel (u "gemini-1.5-flash")])
       | inr _ =>
         (ResponseError 400 (u "Image Processing Error")
            (u "Failed to process the image: " ++ exc_str e
             ++ u ". Make sure you're uploading a valid image file.")
            [u "✅ Image data validated"; u "✅ API key found";
             u "✅ AI service initialized";
             u "❌ Failed to process image: " ++ exc_str e],
          [Configure (GOOGLE_API_KEY env); NewModel (u "gemini-1.5-flash")])
       end end end.
Proof.
  intros Himage Hdecode.
  unfold post_analyze, calls_made.
  rewrite analyze_image_by_stage, Hdecode.
  rewrite (match_nonempty (image_base64 request) _ _ Himage).
  unfold progress_notes.
  destruct (GOOGLE_API_KEY env) as [|k key].
  { cbn [respond error_logs outgoing snd status_of firstn app].
    split; [now right | split; [discriminate | split; [intros ? ? ? [] | reflexivity]]]. }
  destruct (genai_configure env (k :: key)) as [failure|[]].
  { cbn [respond error_logs outgoing snd status_of firstn app].
    split; [now right | split; [discriminate | split; [|reflexivity]]].
    intros ? ? ? [H|[]]; discriminate H. }
  destruct (genai_GenerativeModel env (u "gemini-1.5-flash")) as [failure|model].
  { cbn [respond error_logs outgoing snd status_of firstn app].
    split; [now right | split; [discriminate | split; [|reflexivity]]].
    intros ? ? ? [H|[H|[]]]; discriminate H. }
  cbn [respond error_logs outgoing snd status_of firstn app].
  split; [now left | split; [discriminate | split; [|reflexivity]]].
  intros ? ? ? [H|[H|[]]]; discriminate H.
Qed.

(** The payload of the repository's own test is one that the decoder
    rejects: seventeen alphabet characters are left once the others are
    skipped.  With a key and a client it is answered by the decode
    stage. *)
Lemma undecodable_image_rejected_witness :
  exists message,
    b64decode (u "invalid_base64_data!!!") = inl (PyExc BinasciiError message)
    /\ post_analyze (Sample.analyze_env (u "k") (Sample.replying Sample.reply_complete))
         {| image_base64 := u "invalid_base64_data!!!" |}
       = ResponseError 400 (u "Image Processing Error")
           (u "Failed to process the image: " ++ message
            ++ u ". Make sure you're uploading a valid image file.")
           [u "✅ Image data validated"; u "✅ API key found";
            u "✅ AI service initialized";
            u "❌ Failed to process image: " ++ message]
    /\ calls_made (Sample.analyze_env (u "k") (Sample.replying Sample.reply_complete))
         {| image_base64 := u "invalid_base64_data!!!" |}
       = [Configure (u "k"); NewModel (u "gemini-1.5-flash")].
Proof.
  exists (u "Invalid base64-encoded string: number of data characters (17) cannot be 1 more than a multiple of 4").
  split; [vm_compute; reflexivity|].
  assert (Himage : u "invalid_base64_data!!!" <> []) by (vm_compute; discriminate).
  assert (Hdecode :
            b64decode (u "invalid_base64_data!!!")
            = inl (PyExc BinasciiError
                     (u "Invalid base64-encoded string: number of data characters (17) cannot be 1 more than a multiple of 4")))
    by (vm_compute; reflexivity).
  pose proof (undecodable_image_rejected
                (Sample.analyze_env (u "k") (Sample.replying Sample.reply_complete))
                {| image_base64 := u "invalid_base64_data!!!" |} _
                Himage Hdecode) as (_ & _ & _ & Hrun).
  split.
  - etransitivity; [exact (f_equal fst Hrun) | vm_compute; reflexivity].
  - etransitivity; [exact (f_equal snd Hrun) | vm_compute; reflexivity].
Defined.

(** C3, as the claim has it, fails twice over.  The payload [abcd!] is
    not base64 (the exclamation mark is outside the alphabet), yet the
    decoder skips the stray character and the request goes on to the
    model, whose failure is reported with status 500.  And with no key
    configured, the test payload is answered 500 by the configuration
    check, two stages before any decoding. *)
Lemma invalid_base64_not_always_decode_error :
  (In 33%N (u "abcd!") /\ b64_value 33 = None
   /\ b64decode (u "abcd!") = inr [105; 183; 29]%N
   /\ post_analyze
        (Sample.analyze_env (u "k") (throw OtherException (u "503 Service Unavailable")))
        {| image_base64 := u "abcd!" |}
      = ResponseError 500 (u "AI Analysis Failed")
          (u "The AI service encountered an error: 503 Service Unavailable. This might be a temporary issue - please try again.")
          [u "✅ Image data validated"; u "✅ API key found";
           u "✅ AI service initialized"; u "✅ Image content prepared";
           u "✅ Analysis request prepared";
           u "❌ AI analysis failed: 503 Service Unavailable"])
  /\ post_analyze (Sample.analyze_env [] (Sample.replying Sample.reply_complete))
       {| image_base64 := u "invalid_base64_data!!!" |}
     = ResponseError 500 (u "Configuration Error")
         (u "AI service is not properly configured. Please contact support.")
         [u "✅ Image data validated"; u "❌ API key not configured"].
Proof.
  split; [split; [|split; [|split]]|]; try (vm_compute; reflexivity).
  vm_compute. tauto.
Qed.

(* ================================================================== *)
(** * Unwrapping and validating the reply *)
(* ================================================================== *)

(** ** What lines 426-432 do to a string *)

Lemma fence_chars : fence = [96; 96; 96]%N.
Proof. vm_compute; reflexivity. Qed.

Lemma fence_json_chars : fence_json = fence ++ [106; 115; 111; 110]%N.
Proof. vm_compute; reflexivity. Qed.

Lemma startswith_app (p s : str) : startswith (p ++ s) p = true.
Proof.
  induction p as [|c p IH]; simpl; [reflexivity|].
  now rewrite N.eqb_refl, IH.
Qed.

Lemma startswith_app_l (s p q : str) :
  startswith s (p ++ q) = true -> startswith s p = true.
Proof.
  revert s; induction p as [|c p IH]; intros s; simpl; [reflexivity|].
  destruct s as [|d s]; [discriminate|].
  destruct (c =? d)%N; simpl; [apply IH | discriminate].
Qed.

Lemma skipn_app_exact {A} (p s : list A) : skipn (List.length p) (p ++ s) = s.
Proof. induction p as [|c p IH]; simpl; [reflexivity | exact IH]. Qed.

Lemma firstn_app_exact {A} (p s : list A) : firstn (List.length p) (p ++ s) = p.
Proof. induction p as [|c p IH]; simpl; [reflexivity | now rewrite IH]. Qed.

Lemma endswith_app (s p : str) : endswith (s ++ p) p = true.
Proof. unfold endswith. rewrite rev_app_distr. apply startswith_app. Qed.

Lemma slice_to_neg_app (s p : str) : slice_to_neg (List.length p) (s ++ p) = s.
Proof.
  unfold slice_to_neg. rewrite length_app.
  replace (List.length s + List.length p - List.length p)%nat with (List.length s) by lia.
  apply firstn_app_exact.
Qed.

(** [lstrip] and a trailing character. *)
Lemma lstrip_snoc_space (s : str) (c : codepoint) :
  isspace c = true ->
  lstrip (s ++ [c]) = match lstrip s with [] => [] | t => t ++ [c] end.
Proof.
  intros Hc. induction s as [|a s IH]; simpl.
  - now rewrite Hc.
  - destruct (isspace a); [exact IH | reflexivity].
Qed.

Lemma lstrip_snoc_mark (s : str) (c : codepoint) :
  isspace c = false -> lstrip (s ++ [c]) = lstrip s ++ [c].
Proof.
  intros Hc. induction s as [|a s IH]; simpl.
  - now rewrite Hc.
  - destruct (isspace a); [exact IH | reflexivity].
Qed.

Lemma rstrip_snoc_space (s : str) (c : codepoint) :
  isspace c = true -> rstrip (s ++ [c]) = rstrip s.
Proof.
  intros Hc. unfold rstrip. rewrite rev_app_distr. simpl. now rewrite Hc.
Qed.

Lemma rstrip_snoc_mark (s : str) (c : codepoint) :
  isspace c = false -> rstrip (s ++ [c]) = s ++ [c].
Proof.
  intros Hc. unfold rstrip. rewrite rev_app_distr. simpl. rewrite Hc.
  simpl. now rewrite rev_involutive.
Qed.

Lemma rstrip_cons_mark (c : codepoint) (s : str) :
  isspace c = false -> rstrip (c :: s) = c :: rstrip s.
Proof.
  intros Hc. unfold rstrip. simpl.
  rewrite (lstrip_snoc_mark _ _ Hc), rev_app_distr. reflexivity.
Qed.

Lemma lstrip_idempotent (s : str) : lstrip (lstrip s) = lstrip s.
Proof.
  induction s as [|a s IH]; simpl; [reflexivity|].
  destruct (isspace a) eqn:Ha; [exact IH | simpl; now rewrite Ha].
Qed.

Lemma rstrip_idempotent (s : str) : rstrip (rstrip s) = rstrip s.
Proof. unfold rstrip. now rewrite rev_involutive, lstrip_idempotent. Qed.

(** [strip] leaves a stripped string alone. *)
Lemma strip_idempotent (s : str) : strip (strip s) = strip s.
Proof.
  unfold strip.
  assert (Hhead : lstrip (rstrip (lstrip s)) = rstrip (lstrip s)).
  { pose proof (lstrip_idempotent s) as Hl.
    destruct (lstrip s) as [|a t] eqn:Ht; [reflexivity|].
    simpl in Hl. destruct (isspace a) eqn:Ha.
    - exfalso. assert (Hlen : List.length (lstrip t) <= List.length t).
      { clear. induction t as [|b t IH]; simpl; [lia|].
        destruct (isspace b); simpl; lia. }
      rewrite Hl in Hlen. simpl in Hlen. lia.
    - rewrite (rstrip_cons_mark _ _ Ha). simpl. now rewrite Ha. }
  now rewrite Hhead, rstrip_idempotent.
Qed.

Lemma strip_between_newlines (s : str) : strip (nl ++ s ++ nl) = strip s.
Proof.
  unfold strip.
  replace (lstrip (nl ++ s ++ nl)) with (lstrip (s ++ nl)) by reflexivity.
  unfold nl. rewrite lstrip_snoc_space by reflexivity.
  destruct (lstrip s) as [|a t]; [reflexivity|].
  now apply rstrip_snoc_space.
Qed.

(** A reply inside a fenced block tagged json is unwrapped to the
    stripped reply: this is what the parsing block computes once it is
    given a string. *)
Lemma remove_code_blocks_fenced (reply : str) :
  remove_code_blocks (strip (Sample.fenced reply)) = strip reply.
Proof.
  assert (Hstrip : strip (Sample.fenced reply) = Sample.fenced reply).
  { unfold Sample.fenced, strip. rewrite fence_json_chars, fence_chars. simpl.
    change [96; 96; 96]%N with ([96; 96]%N ++ [96%N]).
    rewrite !app_comm_cons, !app_assoc.
    apply rstrip_snoc_mark. reflexivity. }
  rewrite Hstrip. unfold remove_code_blocks.
  assert (Hjson : startswith (Sample.fenced reply) fence_json = true)
    by apply startswith_app.
  assert (Hrest : slice_from 7 (Sample.fenced reply) = nl ++ reply ++ nl ++ fence)
    by apply (skipn_app_exact fence_json).
  assert (Hstart : startswith (nl ++ reply ++ nl ++ fence) fence = false)
    by (rewrite fence_chars; reflexivity).
  assert (Hsplit : nl ++ reply ++ nl ++ fence = (nl ++ reply ++ nl) ++ fence)
    by now rewrite <- !app_assoc.
  assert (Hend : endswith (nl ++ reply ++ nl ++ fence) fence = true)
    by (rewrite Hsplit; apply endswith_app).
  assert (Hcut : slice_to_neg 3 (nl ++ reply ++ nl ++ fence) = nl ++ reply ++ nl)
    by (rewrite Hsplit; apply (slice_to_neg_app (nl ++ reply ++ nl) fence)).
  rewrite Hjson, Hrest, Hstart, Hend, Hcut.
  apply strip_between_newlines.
Qed.

(** A reply that carries no fence of its own is only stripped. *)
Lemma remove_code_blocks_plain (reply : str) :
  startswith (strip reply) fence = false ->
  endswith (strip reply) fence = false ->
  remove_code_blocks (strip reply) = strip reply.
Proof.
  intros Hstart Hend. unfold remove_code_blocks.
  assert (Hjson : startswith (strip reply) fence_json = false).
  { destruct (startswith (strip reply) fence_json) eqn:H; [|reflexivity].
    rewrite fence_json_chars in H. apply startswith_app_l in H. congruence. }
  rewrite Hjson, Hstart, Hend. apply strip_idempotent.
Qed.

(** So, on strings, the fenced and the plain reply reach [json.loads]
    as the same text. *)
Lemma remove_code_blocks_round_trip (reply : str) :
  startswith (strip reply) fence = false ->
  endswith (strip reply) fence = false ->
  remove_code_blocks (strip (Sample.fenced reply)) = remove_code_blocks (strip reply).
Proof.
  intros Hstart Hend.
  now rewrite remove_code_blocks_fenced, remove_code_blocks_plain.
Qed.

(** ** What lines 443-446 compute on a JSON object *)

Lemma missing_from_dict (d : dict) (fields : list str) :
  missing_from (PDict d) fields
  = ok (filter (fun field => negb (dict_has d field)) fields).
Proof.
  induction fields as [|field rest IH]; simpl; [reflexivity|].
  rewrite IH. unfold ok. now destruct (dict_has d field).
Qed.

(** ** What the endpoint does with such replies *)

(** C1 (the code departs from the claim).  The model answers with the
    complete reply inside a fenced block tagged json.  On strings the
    parsing block would unwrap it to the very text of the plain reply
    and [json.loads] would return the same object; but the block calls
    [strip] on the response object instead of its text, so the fenced
    and the plain reply are both answered 500 "Unexpected Error" and
    nothing is parsed. *)
Theorem fenced_reply_is_not_unwrapped :
  remove_code_blocks (strip (Sample.fenced Sample.reply_complete))
  = remove_code_blocks (strip Sample.reply_complete)
  /\ Sample.loads (remove_code_blocks (strip (Sample.fenced Sample.reply_complete)))
     = Sample.loads Sample.reply_complete
  /\ post_analyze
       (Sample.analyze_env (u "k") (Sample.replying (Sample.fenced Sample.reply_complete)))
       {| image_base64 := Sample.image |}
     = ResponseError 500 (u "Unexpected Error")
         (u "An unexpected error occurred: 'GenerateContentResponse' object has no attribute 'strip'. Please try again or contact support if the issue persists.")
         (progress_notes
          ++ [u "❌ Unexpected error: 'GenerateContentResponse' object has no attribute 'strip'"])
  /\ post_analyze
       (Sample.analyze_env (u "k") (Sample.replying Sample.reply_complete))
       {| image_base64 := Sample.image |}
     = ResponseError 500 (u "Unexpected Error")
         (u "An unexpected error occurred: 'GenerateContentResponse' object has no attribute 'strip'. Please try again or contact support if the issue persists.")
         (progress_notes
          ++ [u "❌ Unexpected error: 'GenerateContentResponse' object has no attribute 'strip'"]).
Proof.
  split; [|split; [|split]]; vm_compute; reflexivity.
Qed.

(** C5 (the code departs from the claim).  The model answers with a
    JSON object that has a score and nothing else.  The validation step
    would name exactly the three missing fields; the endpoint never
    gets there and answers 500 "Unexpected Error", not the
    incomplete-response error. *)
Theorem reply_missing_fields_is_not_reported :
  Sample.loads Sample.reply_score_only = ok (PDict [(u "score", PInt 10)])
  /\ missing_from (PDict [(u "score", PInt 10)]) required_fields
     = ok [u "risk_level"; u "indicators"; u "summary"]
  /\ post_analyze
       (Sample.analyze_env (u "k") (Sample.replying Sample.reply_score_only))
       {| image_base64 := Sample.image |}
     = ResponseError 500 (u "Unexpected Error")
         (u "An unexpected error occurred: 'GenerateContentResponse' object has no attribute 'strip'. Please try again or contact support if the issue persists.")
         (progress_notes
          ++ [u "❌ Unexpected error: 'GenerateContentResponse' object has no attribute 'strip'"]).
Proof.
  split; [|split]; vm_compute; reflexivity.
Qed.

(* ================================================================== *)
(** * Further properties of the authentication routes *)
(* ================================================================== *)

(** X1. A Google token that [verify_oauth2_token] rejects is answered
    401 "Invalid Google token" when the exception is a [ValueError] and
    500 "Authentication failed" for any other exception; the store and
    the clock are not touched. *)
Theorem google_auth_rejected_token
    (env : AuthEnv) (request : GoogleAuthRequest) (e : pyexc) (w : world) :
  verify_oauth2_token env (google_id_token request) = inl e ->
  run_route (google_auth env request) w
  = (ResponseDetail (if is_ValueError e then 401 else 500)
       (if is_ValueError e then u "Invalid Google token"
        else u "Authentication failed"), w).
Proof.
  intros Hverify. run_auth. rewrite Hverify.
  destruct (is_ValueError e); reflexivity.
Qed.

Lemma google_auth_rejected_token_witness :
  run_route (google_auth Sample.auth_env {| google_id_token := u "apple:bob" |})
            Sample.store_with_ada
  = (ResponseDetail 401 (u "Invalid Google token"), Sample.store_with_ada)
  /\ run_route (google_auth Cases.broken_env {| google_id_token := u "google:bob" |})
               Sample.store_with_ada
     = (ResponseDetail 500 (u "Authentication failed"), Sample.store_with_ada).
Proof.
  split.
  - apply (google_auth_rejected_token Sample.auth_env
             {| google_id_token := u "apple:bob" |}
             (PyExc ValueError (u "Wrong number of segments in token"))
             Sample.store_with_ada).
    vm_compute; reflexivity.
  - apply (google_auth_rejected_token Cases.broken_env
             {| google_id_token := u "google:bob" |}
             (PyExc OtherException (u "connection reset"))
             Sample.store_with_ada).
    reflexivity.
Defined.

(** X2. A verified Google token whose claims hold no "sub" is answered
    500 "Authentication failed": the [KeyError] of the subscript is not
    a [ValueError].  Nothing is stored and the clock is not read. *)
Theorem google_auth_token_without_subject
    (env : AuthEnv) (request : GoogleAuthRequest) (idinfo : dict) (w : world) :
  verify_oauth2_token env (google_id_token request) = inr idinfo ->
  dict_lookup idinfo (u "sub") = None ->
  run_route (google_auth env request) w
  = (ResponseDetail 500 (u "Authentication failed"), w).
Proof.
  intros Hverify Hsub. run_auth. unfold subscript, throw.
  rewrite Hverify, Hsub. reflexivity.
Qed.

Lemma google_auth_token_without_subject_witness :
  run_route (google_auth Cases.no_subject_env {| google_id_token := u "bob@example.com" |})
            Sample.empty_store
  = (ResponseDetail 500 (u "Authentication failed"), Sample.empty_store).
Proof.
  apply (google_auth_token_without_subject Cases.no_subject_env
           {| google_id_token := u "bob@example.com" |}
           [(u "email", PStr (u "bob@example.com"))] Sample.empty_store).
  - reflexivity.
  - vm_compute; reflexivity.
Defined.

(** X3. For a subject the store already knows, the Google route
    answers with the email, name and picture of the token, not with
    those of the stored document, which it leaves as it is. *)
Theorem google_auth_known_user_echoes_token
    (env : AuthEnv) (request : GoogleAuthRequest) (idinfo record : dict)
    (subject : pyval) (w : world) :
  verify_oauth2_token env (google_id_token request) = inr idinfo ->
  dict_lookup idinfo (u "sub") = Some subject ->
  find (has_id subject) (users w) = Some record ->
  run_route (google_auth env request) w
  = (Response200
       {| access_token :=
            jwt_encode env
              [(u "sub", subject);
               (u "exp", PDatetime (clock env (ticks w) + 7 * microseconds_per_day))]
              (JWT_SECRET env) (u "HS256");
          token_type := u "bearer";
          user := profile (dict_get idinfo (u "email")) (dict_get idinfo (u "name"))
                          (dict_get idinfo (u "picture")) |},
     {| users := users w; ticks := S (ticks w) |}).
Proof.
  intros Hverify Hsub Hfind.
  run_auth. unfold subscript. rewrite Hverify, Hsub. unfold ok.
  rewrite Hfind, (found_user_is_truthy _ _ _ Hfind).
  rewrite create_access_token_run, sub_then_exp. reflexivity.
Qed.

Lemma google_auth_known_user_echoes_token_witness :
  exists token,
    run_route (google_auth
                 (Cases.auth_env Sample.decode Sample.unverified_claims
                    (fun _ => ok [(u "sub", PStr (u "ada"));
                                  (u "email", PStr (u "new@example.com"))]))
                 {| google_id_token := u "t" |})
              Sample.store_with_ada
    = (Response200
         {| access_token := token; token_type := u "bearer";
            user := profile (PStr (u "new@example.com")) PNone PNone |},
       {| users := [Sample.ada]; ticks := 6 |})
    /\ dict_get Sample.ada (u "email") = PStr (u "ada@example.com").
Proof.
  eexists. split; [|vm_compute; reflexivity].
  pose proof (google_auth_known_user_echoes_token
                (Cases.auth_env Sample.decode Sample.unverified_claims
                   (fun _ => ok [(u "sub", PStr (u "ada"));
                                 (u "email", PStr (u "new@example.com"))]))
                {| google_id_token := u "t" |}
                [(u "sub", PStr (u "ada")); (u "email", PStr (u "new@example.com"))]
                Sample.ada (PStr (u "ada")) Sample.store_with_ada
                eq_refl) as Hrun.
  rewrite Hrun; [| vm_compute; reflexivity | vm_compute; reflexivity].
  vm_compute. reflexivity.
Defined.

(** X4. For a subject the store already knows, the Apple route answers
    with the email, name and picture of the stored document, whatever
    the token's email claim and the request's [user_data] say, and
    stores nothing. *)
Theorem apple_auth_known_user_reads_store
    (env : AuthEnv) (request : AppleAuthRequest) (claims record : dict) (w : world) :
  jwt_get_unverified_claims env (apple_id_token request) = inr claims ->
  find (has_id (dict_get claims (u "sub"))) (users w) = Some record ->
  run_route (apple_auth env request) w
  = (Response200
       {| access_token :=
            jwt_encode env
              [(u "sub", dict_get claims (u "sub"));
               (u "exp", PDatetime (clock env (ticks w) + 7 * microseconds_per_day))]
              (JWT_SECRET env) (u "HS256");
          token_type := u "bearer";
          user := profile (dict_get record (u "email")) (dict_get record (u "name"))
                          (dict_get record (u "picture")) |},
     {| users := users w; ticks := S (ticks w) |}).
Proof.
  intros Hclaims Hfind.
  run_auth. rewrite Hclaims, Hfind, (found_user_is_truthy _ _ _ Hfind).
  cbn [andb].
  rewrite create_access_token_run, sub_then_exp. reflexivity.
Qed.

Lemma apple_auth_known_user_reads_store_witness :
  exists token,
    run_route (apple_auth Sample.auth_env
                 (Cases.apple_request (u "ada.forged")
                    (Some [(u "email", PStr (u "mallory@example.com"))])))
              Sample.store_with_ada
    = (Response200
         {| access_token := token; token_type := u "bearer";
            user := profile (PStr (u "ada@example.com")) (PStr (u "Ada")) PNone |},
       {| users := [Sample.ada]; ticks := 6 |}).
Proof.
  eexists.
  pose proof (apple_auth_known_user_reads_store Sample.auth_env
                (Cases.apple_request (u "ada.forged")
                   (Some [(u "email", PStr (u "mallory@example.com"))]))
                (Sample.claims_of (u "ada")) Sample.ada Sample.store_with_ada) as Hrun.
  rewrite Hrun; [| vm_compute; reflexivity | vm_compute; reflexivity].
  vm_compute. reflexivity.
Defined.

(** X5. An Apple token whose claims cannot be read is answered 500
    "Authentication failed", whatever the exception; nothing is stored
    and the clock is not read. *)
Theorem apple_auth_unreadable_token
    (env : AuthEnv) (request : AppleAuthRequest) (e : pyexc) (w : world) :
  jwt_get_unverified_claims env (apple_id_token request) = inl e ->
  run_route (apple_auth env request) w
  = (ResponseDetail 500 (u "Authentication failed"), w).
Proof.
  intros Hclaims. run_auth. rewrite Hclaims. reflexivity.
Qed.

Lemma apple_auth_unreadable_token_witness :
  run_route (apple_auth Cases.broken_env (Cases.apple_request (u "eve.k3y") None))
            Sample.store_with_ada
  = (ResponseDetail 500 (u "Authentication failed"), Sample.store_with_ada).
Proof.
  apply (apple_auth_unreadable_token Cases.broken_env
           (Cases.apple_request (u "eve.k3y") None)
           (PyExc OtherException (u "connection reset")) Sample.store_with_ada).
  reflexivity.
Defined.

(** X6. A first Apple sign-in that comes with a non-empty [user_data]
    stores one document: the token's email when it is set, the email of
    [user_data] otherwise; the name is [fullName.givenName], "User"
    when [user_data] has no "fullName" or the full name has no
    "givenName".  The response carries that email and name.  (The
    subject, the email and the name are text or absent, the values the
    store is modelled on: neither the token nor [user_data] is
    verified, and a document the driver cannot encode is answered
    500.) *)
Theorem apple_first_sign_in_with_user_data
    (env : AuthEnv) (request : AppleAuthRequest) (claims data : dict)
    (name : pyval) (w : world) :
  jwt_get_unverified_claims env (apple_id_token request) = inr claims ->
  find (has_id (dict_get claims (u "sub"))) (users w) = None ->
  user_data request = Some data ->
  data <> [] ->
  py_get (dict_get_default data (u "fullName") (PDict []))
         (u "givenName") (PStr (u "User")) = inr name ->
  let email := if truthy (dict_get claims (u "email"))
               then dict_get claims (u "email")
               else dict_get data (u "email") in
  text_or_none (dict_get claims (u "sub")) = true ->
  text_or_none email = true ->
  text_or_none name = true ->
  run_route (apple_auth env request) w
  = (Response200
       {| access_token :=
            jwt_encode env
              [(u "sub", dict_get claims (u "sub"));
               (u "exp", PDatetime (clock env (S (ticks w)) + 7 * microseconds_per_day))]
              (JWT_SECRET env) (u "HS256");
          token_type := u "bearer";
          user := profile email name PNone |},
     {| users := users w
                 ++ [[(u "_id", dict_get claims (u "sub")); (u "email", email);
                      (u "name", name); (u "provider", PStr (u "apple"));
                      (u "created_at", PDatetime (clock env (ticks w)))]];
        ticks := S (S (ticks w)) |}).
Proof.
  intros Hclaims Hfind Hdata Hnonempty Hname email _ _ _.
  run_auth. rewrite Hclaims, Hfind, Hdata.
  unfold not_user, user_data_given, utcnow, insert_one.
  destruct data as [|entry data]; [now elim Hnonempty|].
  cbn [andb truthy]. rewrite Hname. cbn [users ticks].
  change (dict_get _ (u "_id")) with (dict_get claims (u "sub")).
  rewrite (find_none_existsb _ _ Hfind).
  rewrite create_access_token_run, sub_then_exp.
  subst email. reflexivity.
Qed.

Lemma apple_first_sign_in_with_user_data_witness :
  exists token record,
    run_route (apple_auth Cases.no_subject_env
                 (Cases.apple_request []
                    (Some [(u "email", PStr (u "eve@example.com"));
                           (u "fullName", PDict [(u "givenName", PStr (u "Eve"))])])))
              Sample.store_with_ada
    = (Response200
         {| access_token := token; token_type := u "bearer";
            user := profile (PStr (u "eve@example.com")) (PStr (u "Eve")) PNone |},
       {| users := [Sample.ada; record]; ticks := 7 |}).
Proof.
  do 2 eexists.
  pose proof (apple_first_sign_in_with_user_data Cases.no_subject_env
                (Cases.apple_request []
                   (Some [(u "email", PStr (u "eve@example.com"));
                          (u "fullName", PDict [(u "givenName", PStr (u "Eve"))])]))
                [(u "email", PStr [])]
                [(u "email", PStr (u "eve@example.com"));
                 (u "fullName", PDict [(u "givenName", PStr (u "Eve"))])]
                (PStr (u "Eve")) Sample.store_with_ada) as Hrun.
  rewrite Hrun.
  - vm_compute. reflexivity.
  - reflexivity.
  - vm_compute; reflexivity.
  - reflexivity.
  - discriminate.
  - vm_compute; reflexivity.
  - vm_compute; reflexivity.
  - vm_compute; reflexivity.
  - vm_compute; reflexivity.
Defined.






(** X9. A Google sign-in for a new subject followed by [GET /me] with
    the token it issued: when [jwt.decode] gives back the subject that
    [jwt.encode] was given, [/me] returns the very profile the sign-in
    returned, and leaves the store as the sign-in left it. *)
Theorem google_sign_in_then_me
    (env : AuthEnv) (request : GoogleAuthRequest) (idinfo payload : dict)
    (subject : pyval) (w : world) :
  verify_oauth2_token env (google_id_token request) = inr idinfo ->
  dict_lookup idinfo (u "sub") = Some subject ->
  subject <> PNone ->
  find (has_id subject) (users w) = None ->
  let token :=
    jwt_encode env
      [(u "sub", subject);
       (u "exp", PDatetime (clock env (S (ticks w)) + 7 * microseconds_per_day))]
      (JWT_SECRET env) (u "HS256") in
  jwt_decode env token (JWT_SECRET env) [JWT_ALGORITHM] = inr payload ->
  dict_get payload (u "sub") = subject ->
  let signed_in := run_route (google_auth env request) w in
  fst signed_in
  = Response200
      {| access_token := token; token_type := u "bearer";
         user := profile (dict_get idinfo (u "email")) (dict_get idinfo (u "name"))
                         (dict_get idinfo (u "picture")) |}
  /\ run_route (get_me env token) (snd signed_in)
     = (Response200 (profile (dict_get idinfo (u "email")) (dict_get idinfo (u "name"))
                             (dict_get idinfo (u "picture"))),
        snd signed_in).
Proof.
  intros Hverify Hsub Hsome Hfind token Hdecode Hpayload signed_in.
  assert (Hrun : signed_in
                 = (Response200
                      {| access_token := token; token_type := u "bearer";
                         user := profile (dict_get idinfo (u "email"))
                                         (dict_get idinfo (u "name"))
                                         (dict_get idinfo (u "picture")) |},
                    {| users := users w
                         ++ [[(u "_id", subject); (u "email", dict_get idinfo (u "email"));
                              (u "name", dict_get idinfo (u "name"));
                              (u "picture", dict_get idinfo (u "picture"));
                              (u "provider", PStr (u "google"));
                              (u "created_at", PDatetime (clock env (ticks w)))]];
                       ticks := S (S (ticks w)) |})).
  { subst signed_in token. run_auth. unfold subscript. rewrite Hverify, Hsub. unfold ok.
    rewrite Hfind. unfold not_user, utcnow, insert_one. cbn [users ticks].
    change (dict_get _ (u "_id")) with subject.
    rewrite (find_none_existsb _ _ Hfind).
    rewrite create_access_token_run, sub_then_exp. reflexivity. }
  rewrite Hrun. cbn [fst snd]. split; [reflexivity|].
  assert (Hfound :
            find (has_id subject)
              (users w
               ++ [[(u "_id", subject); (u "email", dict_get idinfo (u "email"));
                    (u "name", dict_get idinfo (u "name"));
                    (u "picture", dict_get idinfo (u "picture"));
                    (u "provider", PStr (u "google"));
                    (u "created_at", PDatetime (clock env (ticks w)))]])
            = Some [(u "_id", subject); (u "email", dict_get idinfo (u "email"));
                    (u "name", dict_get idinfo (u "name"));
                    (u "picture", dict_get idinfo (u "picture"));
                    (u "provider", PStr (u "google"));
                    (u "created_at", PDatetime (clock env (ticks w)))]).
  { apply find_app_new; [exact Hfind|].
    unfold has_id. cbn [dict_lookup].
    replace (str_eqb (u "_id") (u "_id")) with true by (vm_compute; reflexivity).
    apply pyval_eqb_refl. }
  run_auth. rewrite Hdecode, Hpayload. cbn [users].
  destruct subject; try (now elim Hsome); cbn [users]; rewrite Hfound; reflexivity.
Qed.

Lemma google_sign_in_then_me_witness :
  run_route (get_me Sample.auth_env (u "bob.k3y"))
            (snd (run_route (google_auth Sample.auth_env {| google_id_token := u "google:bob" |})
                    Sample.store_with_ada))
  = (Response200 (profile (PStr (u "ada@example.com")) (PStr (u "Ada")) PNone),
     snd (run_route (google_auth Sample.auth_env {| google_id_token := u "google:bob" |})
            Sample.store_with_ada)).
Proof.
  refine (proj2 (google_sign_in_then_me Sample.auth_env
                   {| google_id_token := u "google:bob" |}
                   [(u "sub", PStr (u "bob")); (u "email", PStr (u "ada@example.com"));
                    (u "name", PStr (u "Ada"))]
                   (Sample.claims_of (u "bob")) (PStr (u "bob")) Sample.store_with_ada
                   _ _ _ _ _ _)).
  - vm_compute; reflexivity.
  - vm_compute; reflexivity.
  - discriminate.
  - vm_compute; reflexivity.
  - vm_compute; reflexivity.
  - vm_compute; reflexivity.
Defined.

(** X10. No route rewrites or removes a stored document: a sign-in
    leaves the store as it was or appends one document to it, on
    success and on failure alike, and [GET /me] leaves it as it was. *)
Theorem routes_only_append (env : AuthEnv) (w : world) :
  (forall request, exists added,
      users (snd (google_auth env request w)) = users w ++ added
      /\ (List.length added <= 1)%nat)
  /\ (forall request, exists added,
      users (snd (apple_auth env request w)) = users w ++ added
      /\ (List.length added <= 1)%nat)
  /\ (forall token, snd (get_me env token w) = w).
Proof.
  assert (Hkeep : forall l : list dict, l = l ++ []) by (intros; now rewrite app_nil_r).
  split; [|split].
  - intros request.
    destruct (verify_oauth2_token env (google_id_token request)) as [e|idinfo] eqn:Hverify.
    { exists []. split; [|simpl; lia]. rewrite <- Hkeep.
      run_auth. rewrite Hverify. now destruct (is_ValueError e). }
    destruct (dict_lookup idinfo (u "sub")) as [subject|] eqn:Hsub.
    2:{ exists []. split; [|simpl; lia]. rewrite <- Hkeep.
        run_auth. unfold subscript, throw. rewrite Hverify, Hsub. reflexivity. }
    destruct (find (has_id subject) (users w)) as [record|] eqn:Hfind.
    + exists []. split; [|simpl; lia]. rewrite <- Hkeep.
      exact (google_auth_known_user env request idinfo record subject w Hverify Hsub Hfind).
    + eexists. split; [|].
      * exact (google_auth_new_user env request idinfo subject w Hverify Hsub Hfind).
      * simpl; lia.
  - intros request.
    destruct (jwt_get_unverified_claims env (apple_id_token request)) as [e|claims] eqn:Hclaims.
    { exists []. split; [|simpl; lia]. rewrite <- Hkeep.
      run_auth. rewrite Hclaims. reflexivity. }
    destruct (find (has_id (dict_get claims (u "sub"))) (users w)) as [record|] eqn:Hfind.
    { exists []. split; [|simpl; lia]. rewrite <- Hkeep.
      run_auth. rewrite Hclaims, Hfind, (found_user_is_truthy _ _ _ Hfind).
      cbn [andb]. rewrite create_access_token_run. reflexivity. }
    run_auth. rewrite Hclaims, Hfind.
    unfold not_user, user_data_given, utcnow, insert_one. cbn [andb].
    destruct (user_data request) as [[|entry data]|].
    + eexists. cbn [truthy users ticks].
      change (dict_get _ (u "_id")) with (dict_get claims (u "sub")).
      rewrite (find_none_existsb _ _ Hfind), create_access_token_run.
      split; [reflexivity | simpl; lia].
    + cbn [truthy].
      destruct (py_get _ (u "givenName") (PStr (u "User"))) as [e|name].
      * exists []. split; [now rewrite <- Hkeep | simpl; lia].
      * eexists. cbn [users ticks].
        change (dict_get _ (u "_id")) with (dict_get claims (u "sub")).
        rewrite (find_none_existsb _ _ Hfind), create_access_token_run.
        split; [reflexivity | simpl; lia].
    + eexists. cbn [users ticks].
      change (dict_get _ (u "_id")) with (dict_get claims (u "sub")).
      rewrite (find_none_existsb _ _ Hfind), create_access_token_run.
      split; [reflexivity | simpl; lia].
  - intros token. run_auth.
    destruct (jwt_decode env token (JWT_SECRET env) [JWT_ALGORITHM]) as [e|payload].
    { now destruct (is_JWTError e). }
    destruct (dict_get payload (u "sub")); try reflexivity;
      match goal with
      | |- context [find ?f ?l] => now destruct (find f l)
      end.
Qed.

(** X11. [get_current_user] turns only [JWTError] into a 401: any
    other exception of [jwt.decode] leaves the handler as it is (the
    framework's 500), and the store is not consulted. *)
Theorem get_me_other_exception_propagates
    (env : AuthEnv) (token : str) (e : pyexc) (w : world) :
  jwt_decode env token (JWT_SECRET env) [JWT_ALGORITHM] = inl e ->
  is_JWTError e = false ->
  run_route (get_me env token) w = (ResponseUnhandled e, w).
Proof.
  intros Hdecode Hclass. run_auth. rewrite Hdecode, Hclass. reflexivity.
Qed.

Lemma get_me_other_exception_propagates_witness :
  status_of (fst (run_route (get_me Cases.broken_env (u "ada.k3y")) Sample.store_with_ada))
  = 500%Z.
Proof.
  rewrite (get_me_other_exception_propagates Cases.broken_env (u "ada.k3y")
             (PyExc OtherException (u "connection reset")) Sample.store_with_ada);
    reflexivity.
Defined.

(** ** The claims handed to [jwt.encode] *)

Lemma dict_lookup_set_same (d : dict) (k : str) (v : pyval) :
  dict_lookup (dict_set d k v) k = Some v.
Proof.
  induction d as [|[k' v'] d IH]; simpl.
  - now rewrite str_eqb_refl.
  - destruct (str_eqb k' k) eqn:Hk; simpl; rewrite Hk; [reflexivity | exact IH].
Qed.

Lemma dict_lookup_set_other (d : dict) (k k0 : str) (v : pyval) :
  k0 <> k -> dict_lookup (dict_set d k v) k0 = dict_lookup d k0.
Proof.
  intros Hne. induction d as [|[k' v'] d IH]; simpl.
  - destruct (str_eqb k k0) eqn:Hk; [|reflexivity].
    apply str_eqb_eq in Hk. now elim Hne.
  - destruct (str_eqb k' k) eqn:Hk; simpl.
    + destruct (str_eqb k' k0) eqn:Hk0; [|reflexivity].
      apply str_eqb_eq in Hk, Hk0. subst. now elim Hne.
    + now rewrite IH.
Qed.

(** X12. Whatever claims the caller passes, the issuer signs them with
    "exp" set to the clock reading plus seven days: an "exp" the caller
    supplied is overwritten, every other claim is signed as given. *)
Theorem create_access_token_sets_expiry
    (E : Type) (env : AuthEnv) (data : dict) (w : world) :
  exists claims,
    create_access_token (E := E) env data w
    = (inr (jwt_encode env claims (JWT_SECRET env) JWT_ALGORITHM),
       {| users := users w; ticks := S (ticks w) |})
    /\ dict_lookup claims (u "exp")
       = Some (PDatetime (clock env (ticks w) + 7 * microseconds_per_day))
    /\ (forall key, key <> u "exp" -> dict_lookup claims key = dict_lookup data key).
Proof.
  eexists. split; [apply create_access_token_run|]. split.
  - apply dict_lookup_set_same.
  - intros key Hkey. now apply dict_lookup_set_other.
Qed.

Ltac run_among :=
  unfold run_route, google_auth_among, google_auth, try_except_Exception, bind, ret,
    raise, call, find_one, meanwhile, respond.

(** X24. A Google sign-in served among other requests, with a token
    that verifies and whose subject and profile are text.  For a
    subject the lookup finds, the answer is 200.  For a subject the
    lookup does not find, the answer depends on what was served before
    the insert is carried out: when the store holds a document for the
    subject by then (another first sign-in for it got there first),
    the store refuses the duplicate, the handler answers 500
    "Authentication failed" and writes nothing; otherwise the document
    is appended and the answer is 200.  The session token is issued at
    the clock read that follows. *)
Theorem google_auth_valid_token_among_others
    (env : AuthEnv) (others : interleaving) (request : GoogleAuthRequest)
    (idinfo : dict) (subject : pyval) (w : world) :
  verify_oauth2_token env (google_id_token request) = inr idinfo ->
  dict_lookup idinfo (u "sub") = Some subject ->
  text_fields idinfo [u "sub"; u "email"; u "name"; u "picture"] = true ->
  let signed_in (w' : world) : http_response AuthResponse * world :=
    (Response200
       {| access_token :=
            jwt_encode env
              [(u "sub", subject);
               (u "exp", PDatetime (clock env (ticks w') + 7 * microseconds_per_day))]
              (JWT_SECRET env) (u "HS256");
          token_type := u "bearer";
          user := profile (dict_get idinfo (u "email")) (dict_get idinfo (u "name"))
                          (dict_get idinfo (u "picture")) |},
     {| users := users w'; ticks := S (ticks w') |}) in
  let w1 := after_lookup others w in
  let created : dict :=
    [(u "_id", subject); (u "email", dict_get idinfo (u "email"));
     (u "name", dict_get idinfo (u "name"));
     (u "picture", dict_get idinfo (u "picture"));
     (u "provider", PStr (u "google"));
     (u "created_at", PDatetime (clock env (ticks w1)))] in
  let w2 := before_insert others {| users := users w1; ticks := S (ticks w1) |} in
  run_route (google_auth_among env others request) w
  = match find (has_id subject) (users w) with
    | Some _ => signed_in w1
    | None =>
      if existsb (has_id subject) (users w2)
      then (ResponseDetail 500 (u "Authentication failed"), w2)
      else signed_in (after_insert others
                        {| users := users w2 ++ [created]; ticks := ticks w2 |})
    end.
Proof.
  intros Hverify Hsub _ signed_in w1 created w2.
  subst signed_in w2 created w1.
  run_among. unfold subscript. rewrite Hverify, Hsub. unfold ok. cbn [fst snd].
  destruct (find (has_id subject) (users w)) as [record|] eqn:Hfind.
  - rewrite (found_user_is_truthy _ _ _ Hfind).
    rewrite create_access_token_run, sub_then_exp. reflexivity.
  - unfold not_user, utcnow, insert_one. cbn [users ticks].
    change (dict_get _ (u "_id")) with subject.
    destruct (existsb (has_id subject)
                (users (before_insert others
                          {| users := users (after_lookup others w);
                             ticks := S (ticks (after_lookup others w)) |})))
      eqn:Htaken.
    + reflexivity.
    + rewrite create_access_token_run, sub_then_exp. reflexivity.
Qed.

(** Two first sign-ins for the same subject at the same time: the
    second is served in full while the first waits for its lookup to
    come back; the first is then refused by the store and answered
    500, and the store holds the document of the second. *)
Lemma google_auth_valid_token_among_others_witness :
  exists record,
    run_route
      (google_auth_among Sample.auth_env
         {| after_lookup :=
              fun w => snd (google_auth Sample.auth_env
                              {| google_id_token := u "google:bob" |} w);
            before_insert := fun w => w;
            after_insert := fun w => w |}
         {| google_id_token := u "google:bob" |})
      Sample.store_with_ada
    = (ResponseDetail 500 (u "Authentication failed"),
       {| users := [Sample.ada; record]; ticks := 8 |}).
Proof.
  eexists.
  rewrite (google_auth_valid_token_among_others Sample.auth_env
             {| after_lookup :=
                  fun w => snd (google_auth Sample.auth_env
                                  {| google_id_token := u "google:bob" |} w);
                before_insert := fun w => w;
                after_insert := fun w => w |}
             {| google_id_token := u "google:bob" |}
             [(u "sub", PStr (u "bob")); (u "email", PStr (u "ada@example.com"));
              (u "name", PStr (u "Ada"))]
             (PStr (u "bob")) Sample.store_with_ada).
  - vm_compute. reflexivity.
  - reflexivity.
  - reflexivity.
  - vm_compute; reflexivity.
Defined.


(** X26. A first Apple sign-in without [user_data], served among other
    requests, for a subject and an email that are text or absent and a
    subject the lookup does not find.  When the store holds a document
    for the subject by the time the insert is carried out, the store
    refuses the duplicate and the answer is 500 "Authentication
    failed", nothing being written; otherwise the document is appended
    to the store as the other requests left it and the answer is 200,
    with the name "User". *)
Theorem apple_first_sign_in_among_others
    (env : AuthEnv) (others : interleaving) (request : AppleAuthRequest)
    (claims : dict) (w : world) :
  jwt_get_unverified_claims env (apple_id_token request) = inr claims ->
  text_fields claims [u "sub"; u "email"] = true ->
  find (has_id (dict_get claims (u "sub"))) (users w) = None ->
  user_data request = None ->
  let w1 := after_lookup others w in
  let created : dict :=
    [(u "_id", dict_get claims (u "sub"));
     (u "email", dict_get claims (u "email"));
     (u "name", PStr (u "User"));
     (u "provider", PStr (u "apple"));
     (u "created_at", PDatetime (clock env (ticks w1)))] in
  let w2 := before_insert others {| users := users w1; ticks := S (ticks w1) |} in
  let w3 := after_insert others {| users := users w2 ++ [created]; ticks := ticks w2 |} in
  run_route (apple_auth_among env others request) w
  = if existsb (has_id (dict_get claims (u "sub"))) (users w2)
    then (ResponseDetail 500 (u "Authentication failed"), w2)
    else (Response200
            {| access_token :=
                 jwt_encode env
                   [(u "sub", dict_get claims (u "sub"));
                    (u "exp", PDatetime (clock env (ticks w3) + 7 * microseconds_per_day))]
                   (JWT_SECRET env) (u "HS256");
               token_type := u "bearer";
               user := profile (dict_get claims (u "email")) (PStr (u "User")) PNone |},
          {| users := users w3; ticks := S (ticks w3) |}).
Proof.
  intros Hclaims _ Hfind Hdata w1 created w2 w3.
  subst w3 w2 created w1.
  unfold run_route, apple_auth_among, try_except_Exception, bind, ret, raise, call,
    find_one, meanwhile, respond.
  rewrite Hclaims, Hfind, Hdata.
  unfold not_user, user_data_given, utcnow, insert_one.
  cbn [andb users ticks fst snd].
  change (dict_get _ (u "_id")) with (dict_get claims (u "sub")).
  destruct (existsb (has_id (dict_get claims (u "sub")))
              (users (before_insert others
                        {| users := users (after_lookup others w);
                           ticks := S (ticks (after_lookup others w)) |})))
    eqn:Htaken.
  - reflexivity.
  - rewrite create_access_token_run, sub_then_exp. reflexivity.
Qed.

(** Another request creates a different user while this one waits for
    its insert: both documents are stored, in the order of the
    inserts. *)
Lemma apple_first_sign_in_among_others_witness :
  exists token eve bob,
    run_route
      (apple_auth_among Sample.auth_env
         {| after_lookup := fun w => w;
            before_insert :=
              fun w => snd (google_auth Sample.auth_env
                              {| google_id_token := u "google:bob" |} w);
            after_insert := fun w => w |}
         {| apple_id_token := u "eve.unsigned"; user_data := None |})
      Sample.store_with_ada
    = (Response200
         {| access_token := token; token_type := u "bearer";
            user := profile (PStr (u "eve@example.com")) (PStr (u "User")) PNone |},
       {| users := [Sample.ada; bob; eve]; ticks := 9 |})
    /\ dict_get eve (u "_id") = PStr (u "eve")
    /\ dict_get bob (u "_id") = PStr (u "bob").
Proof.
  do 3 eexists. split.
  - rewrite (apple_first_sign_in_among_others Sample.auth_env
               {| after_lookup := fun w => w;
                  before_insert :=
                    fun w => snd (google_auth Sample.auth_env
                                    {| google_id_token := u "google:bob" |} w);
                  after_insert := fun w => w |}
               {| apple_id_token := u "eve.unsigned"; user_data := None |}
               (Sample.claims_of (u "eve")) Sample.store_with_ada).
    + vm_compute. reflexivity.
    + reflexivity.
    + vm_compute; reflexivity.
    + reflexivity.
    + reflexivity.
  - split; vm_compute; reflexivity.
Defined.


(* ================================================================== *)
(** * Further properties of the analysis pipeline *)
(* ================================================================== *)

Ltac calls lemma := unfold calls_made; rewrite lemma; reflexivity.

(** X13. The calls that leave the process while one request is
    served, by the stage at which the handler stops.  None is made for
    an empty payload or without a key; the client is configured with
    the key; the model is built only once that has succeeded; the
    model is called only once it is built and the payload decoded, and
    then exactly once, whether the call succeeds or not: there is no
    retry.  The prompt sent is the fixed instruction text and the
    image is the decoded payload; nothing else of the request reaches
    the model. *)
Theorem analyze_calls_in_order (env : AnalyzeEnv) (request : ScamAnalysisRequest) :
  calls_made env request
  = match image_base64 request with
    | [] => []
    | _ :: _ =>
    match GOOGLE_API_KEY env with
    | [] => []
    | _ :: _ =>
    match genai_configure env (GOOGLE_API_KEY env) with
    | inl _ => [Configure (GOOGLE_API_KEY env)]
    | inr _ =>
    match genai_GenerativeModel env (u "gemini-1.5-flash") with
    | inl _ => [Configure (GOOGLE_API_KEY env); NewModel (u "gemini-1.5-flash")]
    | inr _ =>
    match b64decode (image_base64 request) with
    | inl _ => [Configure (GOOGLE_API_KEY env); NewModel (u "gemini-1.5-flash")]
    | inr image_data =>
      [Configure (GOOGLE_API_KEY env); NewModel (u "gemini-1.5-flash");
       GenerateContent (system_message env ++ nl ++ nl ++ user_instruction)
         (u "image/jpeg") image_data]
    end end end end end.
Proof. unfold calls_made. by_stage env request. Qed.

Ltac status lemma := answer lemma; cbn [status_of].

Lemma post_analyze_status (env : AnalyzeEnv) (request : ScamAnalysisRequest) :
  (status_of (post_analyze env request) = 400%Z
   /\ (image_base64 request = []
       \/ exists e, b64decode (image_base64 request) = inl e))
  \/ status_of (post_analyze env request) = 500%Z.
Proof.
  destruct (list_eq_dec N.eq_dec (image_base64 request) []) as [Himage|Himage].
  { left. status (run_empty_image env request Himage). now split; [|left]. }
  destruct (list_eq_dec N.eq_dec (GOOGLE_API_KEY env) []) as [Hkey|Hkey].
  { right. now status (run_no_api_key env request Himage Hkey). }
  destruct (genai_configure env (GOOGLE_API_KEY env)) as [e|[]] eqn:Hconf.
  { right. now status (run_configure_raises env request Himage Hkey e Hconf). }
  destruct (genai_GenerativeModel env (u "gemini-1.5-flash")) as [e|model] eqn:Hmodel.
  { right. now status (run_model_raises env request Himage Hkey Hconf e Hmodel). }
  destruct (b64decode (image_base64 request)) as [e|image_data] eqn:Hdecode.
  { left. status (run_decode_raises env request Himage Hkey Hconf model Hmodel e Hdecode).
    split; [reflexivity | right; now exists e]. }
  right.
  destruct (generate_content env model
              (system_message env ++ nl ++ nl ++ user_instruction)
              (u "image/jpeg") image_data) as [e|response] eqn:Hgen.
  { now status (run_generate_raises env request Himage Hkey Hconf model Hmodel
                  image_data Hdecode e Hgen). }
  destruct (getattr_text response) as [e|reply] eqn:Htext.
  { now status (run_text_raises env request Himage Hkey Hconf model Hmodel
                  image_data Hdecode response Hgen e Htext). }
  now status (run_strip_raises env request Himage Hkey Hconf model Hmodel
                image_data Hdecode response Hgen reply Htext).
Qed.

(** X14. The status of an [/analyze] response is 400 or 500, and it is
    400 only when the payload is empty or the base64 decoder rejected
    it: every other failure, whether of the configuration, of the model
    service or of the handling of its reply, is reported as 500. *)
Theorem analyze_status_codes (env : AnalyzeEnv) (request : ScamAnalysisRequest) :
  (status_of (post_analyze env request) = 400%Z
   \/ status_of (post_analyze env request) = 500%Z)
  /\ (status_of (post_analyze env request) = 400%Z ->
      image_base64 request = []
      \/ exists e, b64decode (image_base64 request) = inl e).
Proof.
  destruct (post_analyze_status env request) as [[H400 Hwhy]|H500].
  - split; [now left | intros _; exact Hwhy].
  - split; [now right | rewrite H500; discriminate].
Qed.

(** X15. With no API key configured, every request with a payload is
    answered 500 "Configuration Error" after the note of the first
    stage, whether or not the payload decodes, and no call leaves the
    process. *)
Theorem analyze_without_api_key (env : AnalyzeEnv) (request : ScamAnalysisRequest) :
  image_base64 request <> [] ->
  GOOGLE_API_KEY env = [] ->
  post_analyze env request
  = ResponseError 500 (u "Configuration Error")
      (u "AI service is not properly configured. Please contact support.")
      [u "✅ Image data validated"; u "❌ API key not configured"]
  /\ calls_made env request = [].
Proof.
  intros Himage Hkey.
  pose proof (run_no_api_key env request Himage Hkey) as Hrun.
  split.
  - answer Hrun. close_run.
  - unfold calls_made. rewrite Hrun. reflexivity.
Qed.

Lemma analyze_without_api_key_witness :
  post_analyze (Sample.analyze_env [] (Sample.replying Sample.reply_complete))
    {| image_base64 := Sample.image |}
  = ResponseError 500 (u "Configuration Error")
      (u "AI service is not properly configured. Please contact support.")
      [u "✅ Image data validated"; u "❌ API key not configured"].
Proof.
  refine (proj1 (analyze_without_api_key
                   (Sample.analyze_env [] (Sample.replying Sample.reply_complete))
                   {| image_base64 := Sample.image |} _ _)).
  - vm_compute; discriminate.
  - reflexivity.
Defined.

(** X16. When the model call raises, or the response it returns has no
    readable text, the request is answered 500 "AI Analysis Failed"
    with the exception's message in the details; the model was called
    once and is not called again. *)
Theorem analyze_model_failure
    (env : AnalyzeEnv) (request : ScamAnalysisRequest)
    (model : GenerativeModel) (image_data : bytes) (e : pyexc) :
  image_base64 request <> [] ->
  GOOGLE_API_KEY env <> [] ->
  genai_configure env (GOOGLE_API_KEY env) = inr tt ->
  genai_GenerativeModel env (u "gemini-1.5-flash") = inr model ->
  b64decode (image_base64 request) = inr image_data ->
  let prompt := system_message env ++ nl ++ nl ++ user_instruction in
  (generate_content env model prompt (u "image/jpeg") image_data = inl e
   \/ exists response,
        generate_content env model prompt (u "image/jpeg") image_data = inr response
        /\ getattr_text response = inl e) ->
  exists logs,
    post_analyze env request
    = ResponseError 500 (u "AI Analysis Failed")
        (u "The AI service encountered an error: " ++ exc_str e
         ++ u ". This might be a temporary issue - please try again.")
        logs
    /\ calls_made env request
       = [Configure (GOOGLE_API_KEY env); NewModel (u "gemini-1.5-flash");
          GenerateContent prompt (u "image/jpeg") image_data].
Proof.
  intros Himage Hkey Hconf Hmodel Hdecode prompt [Hgen|(response & Hgen & Htext)].
  - pose proof (run_generate_raises env request Himage Hkey Hconf model Hmodel
                  image_data Hdecode e Hgen) as Hrun.
    eexists. split.
    + answer Hrun. reflexivity.
    + unfold calls_made. rewrite Hrun. reflexivity.
  - pose proof (run_text_raises env request Himage Hkey Hconf model Hmodel
                  image_data Hdecode response Hgen e Htext) as Hrun.
    eexists. split.
    + answer Hrun. reflexivity.
    + unfold calls_made. rewrite Hrun. reflexivity.
Qed.

Lemma analyze_model_failure_witness :
  exists logs,
    post_analyze
      (Sample.analyze_env (u "k") (throw OtherException (u "503 Service Unavailable")))
      {| image_base64 := Sample.image |}
    = ResponseError 500 (u "AI Analysis Failed")
        (u "The AI service encountered an error: " ++ u "503 Service Unavailable"
         ++ u ". This might be a temporary issue - please try again.")
        logs.
Proof.
  assert (Himage : Sample.image <> []) by (vm_compute; discriminate).
  assert (Hkey : u "k" <> []) by (vm_compute; discriminate).
  assert (Hdecode : b64decode Sample.image = inr [104; 101; 108; 108; 111]%N)
    by (vm_compute; reflexivity).
  destruct (analyze_model_failure
              (Sample.analyze_env (u "k") (throw OtherException (u "503 Service Unavailable")))
              {| image_base64 := Sample.image |}
              {| model_name := u "gemini-1.5-flash" |}
              [104; 101; 108; 108; 111]%N
              (PyExc OtherException (u "503 Service Unavailable"))
              Himage Hkey eq_refl eq_refl Hdecode (or_introl eq_refl))
    as (logs & Hresponse & _).
  exists logs. exact Hresponse.
Defined.

(** X17. [json.loads] and the two pydantic constructors have no
    influence on what the endpoint answers: two services that differ
    only in them give the same response and make the same calls on
    every request. *)
Theorem analyze_ignores_parsers (env env' : AnalyzeEnv) (request : ScamAnalysisRequest) :
  GOOGLE_API_KEY env = GOOGLE_API_KEY env' ->
  system_message env = system_message env' ->
  genai_configure env = genai_configure env' ->
  genai_GenerativeModel env = genai_GenerativeModel env' ->
  generate_content env = generate_content env' ->
  post_analyze env request = post_analyze env' request
  /\ calls_made env request = calls_made env' request.
Proof.
  intros Hk Hs Hc Hm Hg.
  enough (Hrun : analyze_image env request initial_locals
                 = analyze_image env' request initial_locals)
    by (unfold post_analyze, calls_made; now rewrite Hrun).
  destruct (list_eq_dec N.eq_dec (image_base64 request) []) as [Himage|Himage].
  { now rewrite (run_empty_image env request Himage),
                (run_empty_image env' request Himage). }
  destruct (list_eq_dec N.eq_dec (GOOGLE_API_KEY env) []) as [Hkey|Hkey].
  { assert (Hkey' : GOOGLE_API_KEY env' = []) by (rewrite <- Hk; exact Hkey).
    now rewrite (run_no_api_key env request Himage Hkey),
                (run_no_api_key env' request Himage Hkey'). }
  assert (Hkey' : GOOGLE_API_KEY env' <> []) by (rewrite <- Hk; exact Hkey).
  destruct (genai_configure env (GOOGLE_API_KEY env)) as [e|[]] eqn:Hconf.
  { assert (Hconf' : genai_configure env' (GOOGLE_API_KEY env') = inl e)
      by (rewrite <- Hc, <- Hk; exact Hconf).
    rewrite (run_configure_raises env request Himage Hkey e Hconf),
            (run_configure_raises env' request Himage Hkey' e Hconf').
    now rewrite Hk. }
  assert (Hconf' : genai_configure env' (GOOGLE_API_KEY env') = inr tt)
    by (rewrite <- Hc, <- Hk; exact Hconf).
  destruct (genai_GenerativeModel env (u "gemini-1.5-flash")) as [e|model] eqn:Hmodel.
  { assert (Hmodel' : genai_GenerativeModel env' (u "gemini-1.5-flash") = inl e)
      by (rewrite <- Hm; exact Hmodel).
    rewrite (run_model_raises env request Himage Hkey Hconf e Hmodel),
            (run_model_raises env' request Himage Hkey' Hconf' e Hmodel').
    now rewrite Hk. }
  assert (Hmodel' : genai_GenerativeModel env' (u "gemini-1.5-flash") = inr model)
    by (rewrite <- Hm; exact Hmodel).
  destruct (b64decode (image_base64 request)) as [e|image_data] eqn:Hdecode.
  { rewrite (run_decode_raises env request Himage Hkey Hconf model Hmodel e Hdecode),
            (run_decode_raises env' request Himage Hkey' Hconf' model Hmodel' e Hdecode).
    now rewrite Hk. }
  destruct (generate_content env model
              (system_message env ++ nl ++ nl ++ user_instruction)
              (u "image/jpeg") image_data) as [e|response] eqn:Hgen.
  { assert (Hgen' : generate_content env' model
                      (system_message env' ++ nl ++ nl ++ user_instruction)
                      (u "image/jpeg") image_data = inl e)
      by (rewrite <- Hg, <- Hs; exact Hgen).
    rewrite (run_generate_raises env request Himage Hkey Hconf model Hmodel
               image_data Hdecode e Hgen),
            (run_generate_raises env' request Himage Hkey' Hconf' model Hmodel'
               image_data Hdecode e Hgen').
    now rewrite Hk, Hs. }
  assert (Hgen' : generate_content env' model
                    (system_message env' ++ nl ++ nl ++ user_instruction)
                    (u "image/jpeg") image_data = inr response)
    by (rewrite <- Hg, <- Hs; exact Hgen).
  destruct (getattr_text response) as [e|reply] eqn:Htext.
  { rewrite (run_text_raises env request Himage Hkey Hconf model Hmodel
               image_data Hdecode response Hgen e Htext),
            (run_text_raises env' request Himage Hkey' Hconf' model Hmodel'
               image_data Hdecode response Hgen' e Htext).
    now rewrite Hk, Hs. }
  rewrite (run_strip_raises env request Himage Hkey Hconf model Hmodel
             image_data Hdecode response Hgen reply Htext),
          (run_strip_raises env' request Himage Hkey' Hconf' model Hmodel'
             image_data Hdecode response Hgen' reply Htext).
  now rewrite Hk, Hs.
Qed.

Lemma analyze_ignores_parsers_witness :
  post_analyze (Sample.analyze_env (u "k") (Sample.replying Sample.reply_complete))
    {| image_base64 := Sample.image |}
  = post_analyze
      {| GOOGLE_API_KEY := u "k";
         system_message := u "You are a scam detection expert.";
         genai_configure := fun _ => ok tt;
         genai_GenerativeModel := fun name => ok {| model_name := name |};
         generate_content := fun _ _ _ _ => Sample.replying Sample.reply_complete;
         json_loads := fun _ => ok PNone;
         ScamIndicator_init := fun _ => throw TypeError [];
         ScamAnalysisResponse_init := fun _ _ _ _ => throw TypeError [] |}
      {| image_base64 := Sample.image |}.
Proof.
  refine (proj1 (analyze_ignores_parsers _ _ _ _ _ _ _ _)); reflexivity.
Defined.

(** ** Payloads the decoder empties *)

Lemma a2b_loop_skips (payload : list N) (st : a2b_state) :
  quad_pos st = 0%nat ->
  forallb skipped payload = true ->
  a2b_loop payload st = (st, false).
Proof.
  intros Hquad. induction payload as [|c payload IH]; intros Hall; [reflexivity|].
  simpl in Hall. apply andb_prop in Hall as [Hc Hall].
  unfold skipped in Hc. apply andb_prop in Hc as [_ Hc].
  simpl. destruct (c =? BASE64_PAD)%N.
  - rewrite Hquad. simpl. now apply IH.
  - destruct (b64_value c); [discriminate | now apply IH].
Qed.

(** X18. A payload made only of ASCII characters outside the base64
    alphabet (pad characters included) is not rejected: the lenient
    decoder skips them all and returns no bytes, and with the service
    configured the model is called with an empty image. *)
Theorem analyze_payload_without_alphabet
    (env : AnalyzeEnv) (request : ScamAnalysisRequest) (model : GenerativeModel) :
  image_base64 request <> [] ->
  forallb skipped (image_base64 request) = true ->
  GOOGLE_API_KEY env <> [] ->
  genai_configure env (GOOGLE_API_KEY env) = inr tt ->
  genai_GenerativeModel env (u "gemini-1.5-flash") = inr model ->
  b64decode (image_base64 request) = inr []
  /\ calls_made env request
     = [Configure (GOOGLE_API_KEY env); NewModel (u "gemini-1.5-flash");
        GenerateContent (system_message env ++ nl ++ nl ++ user_instruction)
          (u "image/jpeg") []].
Proof.
  intros Himage Hskipped Hkey Hconf Hmodel.
  assert (Hdecode : b64decode (image_base64 request) = inr []).
  { unfold b64decode.
    assert (Hascii : forallb (fun c => (c <? 128)%N) (image_base64 request) = true).
    { clear -Hskipped. induction (image_base64 request) as [|c l IH]; [reflexivity|].
      simpl in *. apply andb_prop in Hskipped as [Hc Hl].
      unfold skipped in Hc. apply andb_prop in Hc as [Hc _].
      now rewrite Hc, IH. }
    rewrite Hascii. unfold a2b_base64.
    now rewrite (a2b_loop_skips _ a2b_init eq_refl Hskipped). }
  split; [exact Hdecode|].
  destruct (generate_content env model
              (system_message env ++ nl ++ nl ++ user_instruction)
              (u "image/jpeg") []) as [e|response] eqn:Hgen.
  { calls (run_generate_raises env request Himage Hkey Hconf model Hmodel
             [] Hdecode e Hgen). }
  destruct (getattr_text response) as [e|reply] eqn:Htext.
  { calls (run_text_raises env request Himage Hkey Hconf model Hmodel
             [] Hdecode response Hgen e Htext). }
  calls (run_strip_raises env request Himage Hkey Hconf model Hmodel
           [] Hdecode response Hgen reply Htext).
Qed.

Lemma analyze_payload_without_alphabet_witness :
  b64decode (u "!?=*") = inr []
  /\ exists prompt,
       calls_made (Sample.analyze_env (u "k") (Sample.replying Sample.reply_complete))
         {| image_base64 := u "!?=*" |}
       = [Configure (u "k"); NewModel (u "gemini-1.5-flash");
          GenerateContent prompt (u "image/jpeg") []].
Proof.
  assert (Himage : u "!?=*" <> []) by (vm_compute; discriminate).
  assert (Hskipped : forallb skipped (u "!?=*") = true) by (vm_compute; reflexivity).
  assert (Hkey : u "k" <> []) by (vm_compute; discriminate).
  destruct (analyze_payload_without_alphabet
              (Sample.analyze_env (u "k") (Sample.replying Sample.reply_complete))
              {| image_base64 := u "!?=*" |}
              {| model_name := u "gemini-1.5-flash" |}
              Himage Hskipped Hkey eq_refl eq_refl) as [Hdecode Hcalls].
  split; [exact Hdecode | eexists; exact Hcalls].
Defined.

(** X19. The repository's test of an undecodable payload passes
    against this handler in every configuration and whatever the model
    service does: with "invalid_base64_data!!!" the status is always
    one of the three the test accepts. *)
Theorem test_analyze_invalid_base64_passes (env : AnalyzeEnv) :
  test_analyze_invalid_base64 (post_analyze env) = true.
Proof.
  unfold test_analyze_invalid_base64. cbv zeta.
  destruct (post_analyze_status env {| image_base64 := u "invalid_base64_data!!!" |})
    as [[Hstatus _]|Hstatus]; rewrite Hstatus; reflexivity.
Qed.

(* ================================================================== *)
(** * Further properties of the reply handling (lines 426-453) *)
(* ================================================================== *)

(** X20. Applied to a string, the unwrapping lines turn a reply inside
    a fenced block into the stripped reply, for every reply and for
    both kinds of fence: tagged json and untagged. *)
Theorem remove_code_blocks_unwraps_both_fences (reply : str) :
  remove_code_blocks (strip (fence_json ++ nl ++ reply ++ nl ++ fence)) = strip reply
  /\ remove_code_blocks (strip (fence ++ nl ++ reply ++ nl ++ fence)) = strip reply.
Proof.
  split; [apply remove_code_blocks_fenced|].
  assert (Hstrip : strip (fence ++ nl ++ reply ++ nl ++ fence)
                   = fence ++ nl ++ reply ++ nl ++ fence).
  { unfold strip. rewrite fence_chars. simpl.
    change [96; 96; 96]%N with ([96; 96]%N ++ [96%N]).
    rewrite !app_comm_cons, !app_assoc.
    apply rstrip_snoc_mark. reflexivity. }
  rewrite Hstrip. unfold remove_code_blocks.
  assert (Hjson : startswith (fence ++ nl ++ reply ++ nl ++ fence) fence_json = false)
    by (rewrite fence_json_chars, fence_chars; reflexivity).
  assert (Hstart : startswith (fence ++ nl ++ reply ++ nl ++ fence) fence = true)
    by apply startswith_app.
  assert (Hrest : slice_from 3 (fence ++ nl ++ reply ++ nl ++ fence)
                  = nl ++ reply ++ nl ++ fence)
    by apply (skipn_app_exact fence).
  assert (Hsplit : nl ++ reply ++ nl ++ fence = (nl ++ reply ++ nl) ++ fence)
    by now rewrite <- !app_assoc.
  assert (Hend : endswith (nl ++ reply ++ nl ++ fence) fence = true)
    by (rewrite Hsplit; apply endswith_app).
  assert (Hcut : slice_to_neg 3 (nl ++ reply ++ nl ++ fence) = nl ++ reply ++ nl)
    by (rewrite Hsplit; apply (slice_to_neg_app (nl ++ reply ++ nl) fence)).
  rewrite Hjson, Hstart, Hrest, Hend, Hcut.
  apply strip_between_newlines.
Qed.

(** X21. On a JSON object the required-field check collects exactly
    the required fields that are not keys of the object, in the order
    score, risk_level, indicators, summary; it collects none exactly
    when all four are keys. *)
Theorem required_fields_of_object (d : dict) :
  exists missing,
    missing_from (PDict d) required_fields = ok missing
    /\ missing = filter (fun field => negb (dict_has d field))
                   [u "score"; u "risk_level"; u "indicators"; u "summary"]
    /\ (missing = [] <->
        dict_has d (u "score") && dict_has d (u "risk_level")
        && dict_has d (u "indicators") && dict_has d (u "summary") = true).
Proof.
  eexists. split; [apply missing_from_dict|]. split; [reflexivity|].
  unfold required_fields. cbn [filter].
  destruct (dict_has d (u "score")), (dict_has d (u "risk_level")),
    (dict_has d (u "indicators")), (dict_has d (u "summary"));
    cbn [negb andb]; split; intros H; try reflexivity; discriminate H.
Qed.

(** X22. The required-field check does not ask for an object: a JSON
    array passes it as soon as the four field names are among its
    elements. *)
Theorem required_fields_of_array (l : list pyval) :
  (forall field, In field required_fields -> In (PStr field) l) ->
  missing_from (PList l) required_fields = ok [].
Proof.
  intros Hall.
  assert (Hin : forall field, In field required_fields ->
                  existsb (pyval_eqb (PStr field)) l = true).
  { intros field Hfield. apply existsb_exists. exists (PStr field).
    split; [now apply Hall | apply pyval_eqb_refl]. }
  clear Hall. revert Hin. generalize required_fields as fields.
  induction fields as [|field rest IH]; intros Hin; [reflexivity|].
  cbn [missing_from py_contains]. unfold ok at 1.
  rewrite (Hin field (or_introl eq_refl)).
  rewrite IH; [reflexivity|]. intros f Hf. apply Hin. now right.
Qed.

Lemma required_fields_of_array_witness :
  missing_from
    (PList [PStr (u "summary"); PInt 3; PStr (u "indicators");
            PStr (u "risk_level"); PStr (u "score")])
    required_fields
  = ok [].
Proof.
  apply required_fields_of_array.
  intros field Hfield. vm_compute in Hfield. vm_compute.
  destruct Hfield as [<-|[<-|[<-|[<-|[]]]]]; tauto.
Defined.

(** X23. When the reply is JSON null, a boolean or a number, the
    required-field check raises a [TypeError]; it is neither a
    [JSONDecodeError] nor a [ValueError], so the two [except] clauses
    of the parsing block let it through to the outer handler. *)
Theorem required_fields_of_scalar (v : pyval) :
  match v with
  | PNone | PBool _ | PInt _ | PFloat _ => True
  | _ => False
  end ->
  exists e,
    missing_from v required_fields = inl e
    /\ exc_class e = TypeError
    /\ is_JSONDecodeError e = false
    /\ is_ValueError e = false.
Proof.
  intros Hscalar.
  destruct v; try contradiction; eexists; (split; [reflexivity|]); repeat split.
Qed.

Lemma required_fields_of_scalar_witness :
  exists e,
    missing_from (PInt 42) required_fields = inl e /\ is_ValueError e = false.
Proof.
  destruct (required_fields_of_scalar (PInt 42) I) as (e & Hraise & _ & _ & Hclass).
  exists e. split; [exact Hraise | exact Hclass].
Defined.
